(** * Static analysis engine of api-performance-analyzer

    A shallow embedding of the Go package [internal/analysis]
    (function [AnalyzeCode] and the detector, advisory, complexity and
    scoring rules behind it), followed by the properties of the engine
    that its specification states.

    Conventions of the embedding.
    - A Go [string] is a sequence of bytes: [String.string].
    - A Go slice is a list together with the information whether the
      slice is [nil]: see [slice].
    - Go's [int] is embedded in [Z].  The only arithmetic on it is the
      complexity counter and the score, which ranges over
      [100 - 25 * len(hints) .. 100]; a slice of [PerformanceHint]
      (five string headers and an int per element) that fits in the
      address space is far too short for that range to leave the
      machine integers, so no wrap-around is written (see
      [calculatePerformanceScore_int64] for the comparison with the
      64-bit computation).
    - [float64] confidences are the decimal constants of the source,
      kept as rationals.
    - The two collaborators from outside the package, [time.Now] and
      [go/parser.ParseFile], are parameters: the clock reading [now]
      and the syntax provider [ParseFile]. *)

From Stdlib Require Import String Ascii List ZArith QArith Bool Lia.
Import ListNotations.

Open Scope string_scope.
Open Scope Z_scope.

(* ================================================================= *)
(** ** Go strings *)

Definition dq : string := String (ascii_of_nat 34) EmptyString.
Definition nl : string := String (ascii_of_nat 10) EmptyString.

(** A multi-line literal, one list entry per source line. *)
Definition lines (l : list string) : string := String.concat nl l.

(** [strings.Contains(s, substr)]: [substr] occurs in [s] as a run of
    consecutive bytes. *)
Fixpoint Contains (s substr : string) : bool :=
  if String.prefix substr s then true
  else match s with
       | EmptyString => false
       | String _ rest => Contains rest substr
       end.

(* ================================================================= *)
(** ** Go slices *)

(** [None] is the [nil] slice, [Some l] a non-nil slice holding [l].
    Both have length 0 when they hold nothing, but only the first one
    compares equal to [nil] (and is serialised as [null]). *)
Definition slice (A : Type) : Type := option (list A).

Definition elems {A : Type} (s : slice A) : list A :=
  match s with
  | None => []
  | Some l => l
  end.

Definition isNil {A : Type} (s : slice A) : bool :=
  match s with
  | None => true
  | Some _ => false
  end.

(** [append(s, x)] *)
Definition append {A : Type} (s : slice A) (x : A) : slice A :=
  Some (elems s ++ [x])%list.

(** [append(s, t...)]: with nothing to add, [s] itself comes back. *)
Definition appendSlice {A : Type} (s t : slice A) : slice A :=
  match elems t with
  | [] => s
  | x :: l => Some (elems s ++ x :: l)%list
  end.

(* ================================================================= *)
(** ** Data model *)

(** [time.Time], as far as the engine is concerned an opaque reading
    of the clock. *)
Definition Time : Type := Z.

Module SecurityIssue.
Record t : Type := mk {
  Type_ : string;
  Description : string;
  Severity : string;
  LineNumber : Z;
  Suggestion : string
}.
End SecurityIssue.

Module PerformanceHint.
Record t : Type := mk {
  Issue : string;
  Impact : string;
  Solution : string;
  CodeExample : string;
  LineNumber : Z;
  Severity : string
}.
End PerformanceHint.

Module BestPractice.
Record t : Type := mk {
  Category : string;
  Current : string;
  Recommended : string;
  Reasoning : string
}.
End BestPractice.

Module AIRecommendation.
Record t : Type := mk {
  Type_ : string;
  Confidence : Q;
  Recommendation : string;
  AutoFixCode : string
}.
End AIRecommendation.

Record CodeAnalysis : Type := {
  SecurityIssues : slice SecurityIssue.t;
  PerformanceHints : slice PerformanceHint.t;
  BestPractices : slice BestPractice.t;
  AIRecommendations : slice AIRecommendation.t;
  AnalysisTime : Time;
  CodeComplexity : Z;
  PerformanceScore : Z;
  PerformanceGrade : string;
  FilePath : string
}.

(* ================================================================= *)
(** ** Syntax trees ([go/ast], [go/token]) *)

(** [token.Pos] and what [fset.Position] makes of it. *)
Definition Pos : Type := Z.

Record Position : Type := {
  Filename : string;
  Offset : Z;
  Line : Z;
  Column : Z
}.

Definition FileSet : Type := Pos -> Position.

(** The node kinds the engine tells apart, and one constructor for
    every other kind ([*ast.File], declarations, blocks, literals, ...).
    [children] are the non-nil children in the order [ast.Walk] visits
    them.  Loops carry the position of their [for] keyword, which is
    what [Pos()] returns for them; [Sel] is the name of the selector's
    identifier. *)
#[local] Unset Elimination Schemes.
Inductive Node : Type :=
| ForStmt (For : Pos) (children : list Node)
| RangeStmt (For : Pos) (children : list Node)
| IfStmt (children : list Node)
| SwitchStmt (children : list Node)
| TypeSwitchStmt (children : list Node)
| CallExpr (Fun : Node) (Args : list Node)
| SelectorExpr (X : Node) (Sel : string)
| Ident (Name : string)
| OtherNode (children : list Node).
#[local] Set Elimination Schemes.

(** [ast.Inspect(node, f)]: depth-first, [f] first at the node; when
    [f] answers [true] the children follow and then [f(nil)].  The
    closures of the source update captured variables, here the state
    [s] they thread. *)
Fixpoint Inspect {S : Type} (f : option Node -> S -> bool * S)
    (node : Node) (s : S) {struct node} : S :=
  let walkList :=
    fix walkList (list : list Node) (s : S) {struct list} : S :=
      match list with
      | [] => s
      | x :: rest => walkList rest (Inspect f x s)
      end in
  let leaf (n : Node) (s : S) : S :=
    let (descend, s) := f (Some n) s in
    if descend then snd (f None s) else s in
  let (descend, s) := f (Some node) s in
  if descend then
    let s :=
      match node with
      | ForStmt _ children | RangeStmt _ children
      | IfStmt children | SwitchStmt children | TypeSwitchStmt children
      | OtherNode children => walkList children s
      | CallExpr fn args => walkList args (Inspect f fn s)
      | SelectorExpr x sel => leaf (Ident sel) (Inspect f x s)
      | Ident _ => s
      end in
    snd (f None s)
  else s.

(** What [parser.ParseFile(fset, filePath, code, parser.ParseComments)]
    hands back on a fresh file set: the tree and the positions recorded
    in [fset], or the error. *)
Inductive ParseResult : Type :=
| ParseOk (fset : FileSet) (node : Node)
| ParseError (err : string).

Definition Parser : Type := string -> string -> ParseResult.

(* ================================================================= *)
(** ** Detector rules: security *)

Definition detectSecurityIssues (node : Node) (fset : FileSet) (code : string)
  : slice SecurityIssue.t :=
  let issues : slice SecurityIssue.t := None in
  (* Check for missing CORS *)
  let issues :=
    if negb (Contains code "cors") && negb (Contains code "CORS") then
      append issues {|
        SecurityIssue.Type_ := "missing_cors";
        SecurityIssue.Description :=
          "No CORS middleware detected - this can cause browser security issues";
        SecurityIssue.Severity := "medium";
        SecurityIssue.LineNumber := 0;
        SecurityIssue.Suggestion := "Add CORS middleware: router.Use(cors.Default())" |}
    else issues in
  (* Check for missing error handling *)
  let issues :=
    if Contains code "BindJSON" && negb (Contains code "StatusBadRequest") then
      append issues {|
        SecurityIssue.Type_ := "insufficient_error_handling";
        SecurityIssue.Description := "JSON binding without proper error responses";
        SecurityIssue.Severity := "medium";
        SecurityIssue.LineNumber := 0;
        SecurityIssue.Suggestion := "Return proper HTTP error codes for invalid JSON" |}
    else issues in
  (* Check for hardcoded secrets *)
  let issues :=
    if Contains code "password" || Contains code "secret" || Contains code "token" then
      append issues {|
        SecurityIssue.Type_ := "potential_hardcoded_secrets";
        SecurityIssue.Description := "Potential hardcoded secrets detected";
        SecurityIssue.Severity := "high";
        SecurityIssue.LineNumber := 0;
        SecurityIssue.Suggestion := "Use environment variables for sensitive data" |}
    else issues in
  (* Check for SQL injection risks *)
  let issues :=
    if Contains code "SELECT" || Contains code "INSERT"
       || Contains code "UPDATE" || Contains code "DELETE" then
      if negb (Contains code "Prepare") && negb (Contains code "?") then
        append issues {|
          SecurityIssue.Type_ := "sql_injection_risk";
          SecurityIssue.Description :=
            "Raw SQL queries detected - potential injection risk";
          SecurityIssue.Severity := "high";
          SecurityIssue.LineNumber := 0;
          SecurityIssue.Suggestion :=
            "Use parameterized queries or ORM with proper escaping" |}
      else issues
    else issues in
  issues.

(* ================================================================= *)
(** ** Capability predicate *)

Definition dbMethods : list string :=
  [ "Find"; "First"; "Last"; "Take"; "Where"; "Select"; "Order"; "Limit"; "Offset";
    "Create"; "Save"; "Update"; "UpdateColumn"; "UpdateColumns"; "Updates";
    "Delete"; "Unscoped"; "Raw"; "Exec"; "Scan"; "Rows"; "Row";
    "Count"; "Group"; "Having"; "Joins"; "Preload"; "Related"; "Association" ].

(** Helper function to detect database calls.  The loop over
    [dbMethods] returns at the first equal name. *)
Definition isDBCall (callExpr : Node) : bool :=
  match callExpr with
  | CallExpr (SelectorExpr _ Sel) _ =>
      existsb (fun method => String.eqb Sel method) dbMethods
  | _ => false
  end.

(** The inner [ast.Inspect] of both loop patterns: the closure raises
    the captured flag [hasDBCall] at a database call and does not
    descend below it. *)
Definition findDBCall (inner : option Node) (hasDBCall : bool) : bool * bool :=
  match inner with
  | Some (CallExpr _ _ as callExpr) =>
      if isDBCall callExpr then (false, true) else (true, hasDBCall)
  | _ => (true, hasDBCall)
  end.

(* ================================================================= *)
(** ** Detector rules: performance *)

Definition example_N1QueryLoop : string :=
  lines [
    "// ❌ Bad: N+1 queries";
    "for _, user := range users {";
    "    posts := db.Where(" ++ dq ++ "user_id = ?" ++ dq ++ ", user.ID).Find(&posts)";
    "}";
    "";
    "// ✅ Good: Single query with JOIN";
    "db.Preload(" ++ dq ++ "Posts" ++ dq ++ ").Find(&users)"
  ].

Definition example_N1QueryRange : string :=
  lines [
    "// ❌ Bad: Query in range loop";
    "for _, order := range orders {";
    "    db.Model(&order).Related(&order.Items)";
    "}";
    "";
    "// ✅ Good: Preload related data";
    "db.Preload(" ++ dq ++ "Items" ++ dq ++ ").Find(&orders)"
  ].

Definition example_GormRelated : string :=
  lines [
    "// ❌ Bad: N+1 with Related()";
    "for _, order := range orders {";
    "    db.Model(&order).Related(&order.Items)";
    "}";
    "";
    "// ✅ Good: Preload related data";
    "db.Preload(" ++ dq ++ "Items" ++ dq ++ ").Find(&orders)"
  ].

Definition example_MissingIndex : string :=
  lines [
    "-- Add these indexes to your migration:";
    "CREATE INDEX idx_users_email ON users(email);";
    "CREATE INDEX idx_posts_status ON posts(status);";
    "CREATE INDEX idx_orders_created_at ON orders(created_at);";
    "";
    "-- For GORM, add to your struct:";
    "type User struct {";
    "    Email string \`gorm:" ++ dq ++ "index" ++ dq ++ "`";
    "}"
  ].

Definition example_LargePayload : string :=
  lines [
    "// ❌ Bad: Return all records";
    "var users []User";
    "db.Find(&users)";
    "c.JSON(200, users)";
    "";
    "// ✅ Good: Paginated response";
    "page, _ := strconv.Atoi(c.DefaultQuery(" ++ dq ++ "page" ++ dq ++ ", " ++ dq ++ "1" ++ dq ++ "))";
    "limit, _ := strconv.Atoi(c.DefaultQuery(" ++ dq ++ "limit" ++ dq ++ ", " ++ dq ++ "20" ++ dq ++ "))";
    "offset := (page - 1) * limit";
    "";
    "var users []User";
    "var total int64";
    "db.Model(&User{}).Count(&total)";
    "db.Offset(offset).Limit(limit).Find(&users)";
    "";
    "c.JSON(200, gin.H{";
    "    " ++ dq ++ "data" ++ dq ++ ": users, ";
    "    " ++ dq ++ "page" ++ dq ++ ": page,";
    "    " ++ dq ++ "total" ++ dq ++ ": total,";
    "    " ++ dq ++ "pages" ++ dq ++ ": (total + int64(limit) - 1) / int64(limit),";
    "})"
  ].

Definition example_MissingCaching : string :=
  lines [
    "// Add caching for expensive operations";
    "func getExpensiveReport(c *gin.Context) {";
    "    cacheKey := " ++ dq ++ "report_" ++ dq ++ " + c.Query(" ++ dq ++ "type" ++ dq ++ ")";
    "    ";
    "    // Check cache first";
    "    if cached, exists := cache.Get(cacheKey); exists {";
    "        c.JSON(200, cached)";
    "        return";
    "    }";
    "    ";
    "    // Calculate only if not cached";
    "    result := calculateExpensiveReport()";
    "    cache.Set(cacheKey, result, 5*time.Minute)";
    "    c.JSON(200, result)";
    "}";
    "";
    "// Or use middleware caching";
    "router.GET(" ++ dq ++ "/reports" ++ dq ++ ", cache.CachePage(store, time.Minute*5, getReports))"
  ].

Definition example_InMemoryStorage : string :=
  lines [
    "// Use database instead";
    "import " ++ dq ++ "database/sql" ++ dq ++ "";
    "db, err := sql.Open(" ++ dq ++ "postgres" ++ dq ++ ", connectionString)";
    "// Store albums in database table"
  ].

Definition example_ConnectionPooling : string :=
  lines [
    "db.SetMaxOpenConns(25)";
    "db.SetMaxIdleConns(25)";
    "db.SetConnMaxLifetime(5 * time.Minute)"
  ].

Definition autofix_Architecture : string :=
  lines [
    "type AlbumRepository interface {";
    "    GetAll(ctx context.Context) ([]Album, error)";
    "    GetByID(ctx context.Context, id string) (*Album, error)";
    "    Create(ctx context.Context, album Album) error";
    "    Update(ctx context.Context, album Album) error";
    "    Delete(ctx context.Context, id string) error";
    "}"
  ].

Definition autofix_Middleware : string :=
  lines [
    "router.Use(gin.Logger())";
    "router.Use(gin.Recovery())";
    "router.Use(cors.Default())";
    "router.Use(rateLimitMiddleware())"
  ].

Definition autofix_ApiDesign : string :=
  lines [
    "v1 := router.Group(" ++ dq ++ "/api/v1" ++ dq ++ ")";
    "{";
    "    v1.GET(" ++ dq ++ "/albums" ++ dq ++ ", getAlbums)";
    "    v1.POST(" ++ dq ++ "/albums" ++ dq ++ ", postAlbums)";
    "    v1.GET(" ++ dq ++ "/albums/:id" ++ dq ++ ", getAlbumByID)";
    "}"
  ].

Definition autofix_Testing : string :=
  lines [
    "func TestGetAlbums(t *testing.T) {";
    "    router := setupRouter()";
    "    w := httptest.NewRecorder()";
    "    req, _ := http.NewRequest(" ++ dq ++ "GET" ++ dq ++ ", " ++ dq ++ "/albums" ++ dq ++ ", nil)";
    "    router.ServeHTTP(w, req)";
    "    assert.Equal(t, 200, w.Code)";
    "}"
  ].

(** Detect N+1 Query Patterns *)
Definition detectN1QueryPatterns (node : Node) (fset : FileSet) (code : string)
  : slice PerformanceHint.t :=
  let hints : slice PerformanceHint.t := None in
  (* Pattern 1: Loop with database calls *)
  let hints :=
    Inspect (fun n hints =>
      match n with
      | Some (ForStmt For _ as forStmt) =>
          let hasDBCall := Inspect findDBCall forStmt false in
          if hasDBCall then
            let pos := fset For in
            (true, append hints {|
               PerformanceHint.Issue := "Potential N+1 Query Pattern";
               PerformanceHint.Impact :=
                 "🔴 CRITICAL: Could execute hundreds of database queries instead of one";
               PerformanceHint.Solution :=
                 "Use JOIN queries or eager loading to fetch related data in one query";
               PerformanceHint.CodeExample := example_N1QueryLoop;
               PerformanceHint.LineNumber := Line pos;
               PerformanceHint.Severity := "critical" |})
          else (true, hints)
      | _ => (true, hints)
      end) node hints in
  (* Pattern 2: Range loop with database calls *)
  let hints :=
    Inspect (fun n hints =>
      match n with
      | Some (RangeStmt For _ as rangeStmt) =>
          let hasDBCall := Inspect findDBCall rangeStmt false in
          if hasDBCall then
            let pos := fset For in
            (true, append hints {|
               PerformanceHint.Issue := "N+1 Query in Range Loop";
               PerformanceHint.Impact :=
                 "🔴 CRITICAL: Database call inside range loop creates N+1 queries";
               PerformanceHint.Solution :=
                 "Extract database calls outside the loop or use batch queries";
               PerformanceHint.CodeExample := example_N1QueryRange;
               PerformanceHint.LineNumber := Line pos;
               PerformanceHint.Severity := "critical" |})
          else (true, hints)
      | _ => (true, hints)
      end) node hints in
  (* Pattern 3: GORM Related() calls in loops *)
  let hints :=
    if Contains code "for" && Contains code ".Related(" then
      append hints {|
        PerformanceHint.Issue := "GORM N+1 Query with Related()";
        PerformanceHint.Impact :=
          "🔴 CRITICAL: Each Related() call executes a separate query";
        PerformanceHint.Solution := "Use Preload() to fetch related data efficiently";
        PerformanceHint.CodeExample := example_GormRelated;
        PerformanceHint.LineNumber := 0;
        PerformanceHint.Severity := "critical" |}
    else hints in
  hints.

(** Detect queries that would benefit from database indexes *)
Definition wherePatterns : list string :=
  [ "WHERE name";
    "WHERE email";
    "WHERE status";
    "WHERE created_at";
    "LIKE '%";
    ".Where(" ++ dq ++ "name";
    ".Where(" ++ dq ++ "email";
    ".Where(" ++ dq ++ "status" ].

Definition detectMissingIndexes (node : Node) (fset : FileSet) (code : string)
  : slice PerformanceHint.t :=
  let hints : slice PerformanceHint.t := None in
  let hints :=
    (fix loop (patterns : list string) (hints : slice PerformanceHint.t) :=
       match patterns with
       | [] => hints
       | pattern :: rest =>
           if Contains code pattern then
             (* break: only add one hint for missing indexes *)
             append hints {|
               PerformanceHint.Issue := "Potential Missing Database Index";
               PerformanceHint.Impact :=
                 "🟠 HIGH: Query will scan entire table without proper index";
               PerformanceHint.Solution :=
                 "Add database index on frequently queried columns";
               PerformanceHint.CodeExample := example_MissingIndex;
               PerformanceHint.LineNumber := 0;
               PerformanceHint.Severity := "high" |}
           else loop rest hints
       end) wherePatterns hints in
  hints.

(** Detect large payload serialization issues *)
Definition detectLargePayloadIssues (node : Node) (fset : FileSet) (code : string)
  : slice PerformanceHint.t :=
  let hints : slice PerformanceHint.t := None in
  if (Contains code "c.JSON" || Contains code "json.Marshal")
     && (Contains code ".Find(&" || Contains code "SELECT *")
     && negb (Contains code "Limit") && negb (Contains code "LIMIT") then
    append hints {|
      PerformanceHint.Issue := "Large Dataset Response Without Pagination";
      PerformanceHint.Impact :=
        "🟠 HIGH: Returning large datasets will cause slow responses and high memory usage";
      PerformanceHint.Solution := "Implement pagination for large data responses";
      PerformanceHint.CodeExample := example_LargePayload;
      PerformanceHint.LineNumber := 0;
      PerformanceHint.Severity := "high" |}
  else hints.

(** Detect expensive operations that should be cached *)
Definition expensiveOperations : list string :=
  [ "calculateReport";
    "generateStats";
    "getAggregated";
    "COUNT(";
    "SUM(";
    "AVG(";
    "GROUP BY";
    "ORDER BY" ].

Definition detectMissingCaching (node : Node) (fset : FileSet) (code : string)
  : slice PerformanceHint.t :=
  let hints : slice PerformanceHint.t := None in
  let hints :=
    (fix loop (ops : list string) (hints : slice PerformanceHint.t) :=
       match ops with
       | [] => hints
       | op :: rest =>
           if Contains code op && negb (Contains code "cache")
              && negb (Contains code "Cache") then
             (* break *)
             append hints {|
               PerformanceHint.Issue := "Expensive Operation Without Caching";
               PerformanceHint.Impact :=
                 "🟡 MEDIUM: Repeated expensive calculations will slow down your API";
               PerformanceHint.Solution :=
                 "Cache expensive operation results with Redis or in-memory cache";
               PerformanceHint.CodeExample := example_MissingCaching;
               PerformanceHint.LineNumber := 0;
               PerformanceHint.Severity := "medium" |}
           else loop rest hints
       end) expensiveOperations hints in
  hints.

Definition detectPerformanceIssues (node : Node) (fset : FileSet) (code : string)
  : slice PerformanceHint.t :=
  let hints : slice PerformanceHint.t := None in
  (* Detect N+1 Query Patterns *)
  let hints := appendSlice hints (detectN1QueryPatterns node fset code) in
  (* Detect Missing Database Indexes *)
  let hints := appendSlice hints (detectMissingIndexes node fset code) in
  (* Detect Large Payload Issues *)
  let hints := appendSlice hints (detectLargePayloadIssues node fset code) in
  (* Detect Missing Caching Opportunities *)
  let hints := appendSlice hints (detectMissingCaching node fset code) in
  (* Check for in-memory data storage *)
  let hints :=
    if Contains code "var albums = []" || Contains code "albums = append(" then
      append hints {|
        PerformanceHint.Issue := "In-memory data storage";
        PerformanceHint.Impact :=
          "🟡 MEDIUM: Data lost on restart, not scalable, memory leaks";
        PerformanceHint.Solution :=
          "Implement database persistence (PostgreSQL, MongoDB, etc.)";
        PerformanceHint.CodeExample := example_InMemoryStorage;
        PerformanceHint.LineNumber := 0;
        PerformanceHint.Severity := "medium" |}
    else hints in
  (* Check for missing connection pooling *)
  let hints :=
    if Contains code "sql.Open" && negb (Contains code "SetMaxOpenConns") then
      append hints {|
        PerformanceHint.Issue := "No database connection pooling";
        PerformanceHint.Impact := "🟠 HIGH: Resource exhaustion, poor scalability";
        PerformanceHint.Solution := "Configure connection pool settings";
        PerformanceHint.CodeExample := example_ConnectionPooling;
        PerformanceHint.LineNumber := 0;
        PerformanceHint.Severity := "high" |}
    else hints in
  hints.

(* ================================================================= *)
(** ** Advisory and recommendation rules *)

Definition suggestBestPractices (node : Node) (fset : FileSet) (code : string)
  : slice BestPractice.t :=
  let practices : slice BestPractice.t := None in
  let practices :=
    append practices {|
      BestPractice.Category := "Error Handling";
      BestPractice.Current := "Basic error handling";
      BestPractice.Recommended :=
        "Structured error responses with proper HTTP status codes";
      BestPractice.Reasoning :=
        "Better client experience, easier debugging, API consistency" |} in
  let practices :=
    if negb (Contains code "middleware") then
      append practices {|
        BestPractice.Category := "Request Validation";
        BestPractice.Current := "No input validation middleware";
        BestPractice.Recommended := "Add request validation and sanitization";
        BestPractice.Reasoning :=
          "Prevent invalid data, improve security, reduce debugging time" |}
    else practices in
  let practices :=
    if negb (Contains code "Logger") then
      append practices {|
        BestPractice.Category := "Logging";
        BestPractice.Current := "No structured logging";
        BestPractice.Recommended :=
          "Add request/response logging with correlation IDs";
        BestPractice.Reasoning :=
          "Essential for debugging production issues and monitoring" |}
    else practices in
  let practices :=
    if Contains code ("Run(" ++ dq ++ "localhost:8080" ++ dq ++ ")") then
      append practices {|
        BestPractice.Category := "Configuration";
        BestPractice.Current := "Hardcoded port and host";
        BestPractice.Recommended := "Use environment variables for configuration";
        BestPractice.Reasoning :=
          "Enables different environments (dev, staging, prod)" |}
    else practices in
  practices.

Definition generateAIRecommendations (code codeType : string)
  : slice AIRecommendation.t :=
  let recommendations : slice AIRecommendation.t := None in
  (* Architecture recommendations *)
  let recommendations :=
    if Contains code "func get" && Contains code "func post" then
      append recommendations {|
        AIRecommendation.Type_ := "architecture";
        AIRecommendation.Confidence := 0.85%Q;
        AIRecommendation.Recommendation :=
          "Consider implementing repository pattern for cleaner data access";
        AIRecommendation.AutoFixCode := autofix_Architecture |}
    else recommendations in
  (* Middleware recommendations *)
  let recommendations :=
    if negb (Contains code "Recovery()") then
      append recommendations {|
        AIRecommendation.Type_ := "middleware";
        AIRecommendation.Confidence := 0.92%Q;
        AIRecommendation.Recommendation :=
          "Add essential middleware for production readiness";
        AIRecommendation.AutoFixCode := autofix_Middleware |}
    else recommendations in
  (* API versioning *)
  let recommendations :=
    if negb (Contains code "/v1/") && negb (Contains code "/api/v") then
      append recommendations {|
        AIRecommendation.Type_ := "api_design";
        AIRecommendation.Confidence := 0.78%Q;
        AIRecommendation.Recommendation :=
          "Add API versioning for future compatibility";
        AIRecommendation.AutoFixCode := autofix_ApiDesign |}
    else recommendations in
  (* Testing recommendations *)
  let recommendations :=
    if negb (Contains code "_test.go") then
      append recommendations {|
        AIRecommendation.Type_ := "testing";
        AIRecommendation.Confidence := 0.88%Q;
        AIRecommendation.Recommendation :=
          "Add unit tests for better code reliability";
        AIRecommendation.AutoFixCode := autofix_Testing |}
    else recommendations in
  recommendations.

(* ================================================================= *)
(** ** Complexity and scoring *)

Definition calculateComplexity (node : Node) : Z :=
  let complexity := 0 in
  Inspect (fun n complexity =>
    match n with
    | Some (IfStmt _) | Some (ForStmt _ _) | Some (RangeStmt _ _)
    | Some (SwitchStmt _) | Some (TypeSwitchStmt _) => (true, complexity + 1)
    | _ => (true, complexity)
    end) node complexity.

(** Calculate performance score based on detected issues *)
Definition calculatePerformanceScore (hints : slice PerformanceHint.t) : Z * string :=
  let score := 100 in
  let score :=
    fold_left (fun score hint =>
      if String.eqb (PerformanceHint.Severity hint) "critical" then score - 25
      else if String.eqb (PerformanceHint.Severity hint) "high" then score - 15
      else if String.eqb (PerformanceHint.Severity hint) "medium" then score - 10
      else if String.eqb (PerformanceHint.Severity hint) "low" then score - 5
      else score) (elems hints) score in
  let score := if score <? 0 then 0 else score in
  let grade :=
    if score >=? 95 then "A+"
    else if score >=? 90 then "A"
    else if score >=? 80 then "B"
    else if score >=? 70 then "C"
    else if score >=? 60 then "D"
    else "F" in
  (score, grade).

(* ================================================================= *)
(** ** Report assembler *)

(** AnalyzeCode performs comprehensive analysis on Go code.  [now] is
    the value [time.Now()] returns during the call. *)
Definition AnalyzeCode (ParseFile : Parser) (now : Time)
    (code codeType filePath : string) : CodeAnalysis :=
  let analysis := {|
    SecurityIssues := Some [];
    PerformanceHints := Some [];
    BestPractices := Some [];
    AIRecommendations := Some [];
    AnalysisTime := now;
    CodeComplexity := 0;
    PerformanceScore := 0;
    PerformanceGrade := "";
    FilePath := filePath |} in
  (* Parse Go code *)
  match ParseFile filePath code with
  | ParseError err =>
      (* If parsing fails, return basic analysis *)
      {| SecurityIssues :=
           append (SecurityIssues analysis) {|
             SecurityIssue.Type_ := "syntax_error";
             SecurityIssue.Description := "Code contains syntax errors";
             SecurityIssue.Severity := "high";
             SecurityIssue.LineNumber := 0;
             SecurityIssue.Suggestion := "Fix syntax errors before analysis: " ++ err |};
         PerformanceHints := PerformanceHints analysis;
         BestPractices := BestPractices analysis;
         AIRecommendations := AIRecommendations analysis;
         AnalysisTime := AnalysisTime analysis;
         CodeComplexity := CodeComplexity analysis;
         PerformanceScore := PerformanceScore analysis;
         PerformanceGrade := PerformanceGrade analysis;
         FilePath := FilePath analysis |}
  | ParseOk fset node =>
      (* Analyze for common issues *)
      let securityIssues := detectSecurityIssues node fset code in
      let performanceHints := detectPerformanceIssues node fset code in
      let bestPractices := suggestBestPractices node fset code in
      let aiRecommendations := generateAIRecommendations code codeType in
      let codeComplexity := calculateComplexity node in
      (* Calculate performance score *)
      let (performanceScore, performanceGrade) :=
        calculatePerformanceScore performanceHints in
      {| SecurityIssues := securityIssues;
         PerformanceHints := performanceHints;
         BestPractices := bestPractices;
         AIRecommendations := aiRecommendations;
         AnalysisTime := AnalysisTime analysis;
         CodeComplexity := codeComplexity;
         PerformanceScore := performanceScore;
         PerformanceGrade := performanceGrade;
         FilePath := FilePath analysis |}
  end.

(* ================================================================= *)
(** ** Vocabulary of the properties: strings and trees *)

(** [substr] occurs in [s]: some bytes, then [substr], then the rest. *)
Definition occurs (substr s : string) : Prop :=
  exists before after, s = before ++ substr ++ after.

(** The nodes of a tree in the order of a full traversal. *)
Fixpoint subnodes (node : Node) : list Node :=
  node ::
  match node with
  | ForStmt _ children | RangeStmt _ children
  | IfStmt children | SwitchStmt children | TypeSwitchStmt children
  | OtherNode children => flat_map subnodes children
  | CallExpr fn args => (subnodes fn ++ flat_map subnodes args)%list
  | SelectorExpr x sel => (subnodes x ++ [Ident sel])%list
  | Ident _ => []
  end.

(** Induction on trees, with the hypothesis for every child. *)
Section NodeInduction.
  Variable P : Node -> Prop.
  Hypothesis HFor : forall p cs, Forall P cs -> P (ForStmt p cs).
  Hypothesis HRange : forall p cs, Forall P cs -> P (RangeStmt p cs).
  Hypothesis HIf : forall cs, Forall P cs -> P (IfStmt cs).
  Hypothesis HSwitch : forall cs, Forall P cs -> P (SwitchStmt cs).
  Hypothesis HTypeSwitch : forall cs, Forall P cs -> P (TypeSwitchStmt cs).
  Hypothesis HCall : forall fn args, P fn -> Forall P args -> P (CallExpr fn args).
  Hypothesis HSel : forall x sel, P x -> P (SelectorExpr x sel).
  Hypothesis HIdent : forall name, P (Ident name).
  Hypothesis HOther : forall cs, Forall P cs -> P (OtherNode cs).

Fixpoint Node_ind (node : Node) : P node :=
  let all :=
    fix all (l : list Node) : Forall P l :=
      match l with
      | [] => Forall_nil P
      | x :: rest => Forall_cons x (Node_ind x) (all rest)
      end in
  match node with
  | ForStmt p cs => HFor p cs (all cs)
  | RangeStmt p cs => HRange p cs (all cs)
  | IfStmt cs => HIf cs (all cs)
  | SwitchStmt cs => HSwitch cs (all cs)
  | TypeSwitchStmt cs => HTypeSwitch cs (all cs)
  | CallExpr fn args => HCall fn args (Node_ind fn) (all args)
  | SelectorExpr x sel => HSel x sel (Node_ind x)
  | Ident name => HIdent name
  | OtherNode cs => HOther cs (all cs)
  end.
End NodeInduction.

(** The children of a node, as [ast.Walk] lists them. *)
Definition childrenOf (node : Node) : list Node :=
  match node with
  | ForStmt _ children | RangeStmt _ children
  | IfStmt children | SwitchStmt children | TypeSwitchStmt children
  | OtherNode children => children
  | CallExpr fn args => fn :: args
  | SelectorExpr x sel => [x; Ident sel]
  | Ident _ => []
  end.

(** [ast.Inspect] over the trees of a list, one after the other. *)
Definition InspectList {S : Type} (f : option Node -> S -> bool * S)
    (list : list Node) (s : S) : S :=
  fold_left (fun s x => Inspect f x s) list s.

(** Some node of the tree is a database call in the sense of
    [isDBCall]. *)
Definition containsDBCall (node : Node) : bool :=
  existsb isDBCall (subnodes node).

(** A data-access call: a call whose function is a selector with a
    name of the catalogue.  A tree contains one when one of its nodes
    is one. *)
Definition dataAccessCall (n : Node) : Prop :=
  exists x sel args, n = CallExpr (SelectorExpr x sel) args /\ In sel dbMethods.

Definition containsDataAccessCall (node : Node) : Prop :=
  exists call, In call (subnodes node) /\ dataAccessCall call.

(** Positions of the counted loops, and of the range loops, whose
    subtree contains a database call, in traversal order. *)
Definition forLoopsWithDBCall (node : Node) : list Pos :=
  flat_map (fun n => match n with
                     | ForStmt For _ => if containsDBCall n then [For] else []
                     | _ => []
                     end) (subnodes node).

Definition rangeLoopsWithDBCall (node : Node) : list Pos :=
  flat_map (fun n => match n with
                     | RangeStmt For _ => if containsDBCall n then [For] else []
                     | _ => []
                     end) (subnodes node).

(** The tree has a loop of either kind. *)
Definition isLoop (n : Node) : bool :=
  match n with
  | ForStmt _ _ | RangeStmt _ _ => true
  | _ => false
  end.

Definition hasLoop (node : Node) : bool := existsb isLoop (subnodes node).

(* ================================================================= *)
(** ** Vocabulary of the properties: the findings by name *)

Definition syntaxErrorIssue (err : string) : SecurityIssue.t := {|
  SecurityIssue.Type_ := "syntax_error";
  SecurityIssue.Description := "Code contains syntax errors";
  SecurityIssue.Severity := "high";
  SecurityIssue.LineNumber := 0;
  SecurityIssue.Suggestion := "Fix syntax errors before analysis: " ++ err |}.

Definition issueMissingCors : SecurityIssue.t := {|
  SecurityIssue.Type_ := "missing_cors";
  SecurityIssue.Description :=
    "No CORS middleware detected - this can cause browser security issues";
  SecurityIssue.Severity := "medium";
  SecurityIssue.LineNumber := 0;
  SecurityIssue.Suggestion := "Add CORS middleware: router.Use(cors.Default())" |}.

Definition issueErrorHandling : SecurityIssue.t := {|
  SecurityIssue.Type_ := "insufficient_error_handling";
  SecurityIssue.Description := "JSON binding without proper error responses";
  SecurityIssue.Severity := "medium";
  SecurityIssue.LineNumber := 0;
  SecurityIssue.Suggestion := "Return proper HTTP error codes for invalid JSON" |}.

Definition issueHardcodedSecrets : SecurityIssue.t := {|
  SecurityIssue.Type_ := "potential_hardcoded_secrets";
  SecurityIssue.Description := "Potential hardcoded secrets detected";
  SecurityIssue.Severity := "high";
  SecurityIssue.LineNumber := 0;
  SecurityIssue.Suggestion := "Use environment variables for sensitive data" |}.

Definition issueSqlInjection : SecurityIssue.t := {|
  SecurityIssue.Type_ := "sql_injection_risk";
  SecurityIssue.Description := "Raw SQL queries detected - potential injection risk";
  SecurityIssue.Severity := "high";
  SecurityIssue.LineNumber := 0;
  SecurityIssue.Suggestion := "Use parameterized queries or ORM with proper escaping" |}.

(** The three findings [detectN1QueryPatterns] can append. *)
Definition hintN1Loop (line : Z) : PerformanceHint.t := {|
  PerformanceHint.Issue := "Potential N+1 Query Pattern";
  PerformanceHint.Impact :=
    "🔴 CRITICAL: Could execute hundreds of database queries instead of one";
  PerformanceHint.Solution :=
    "Use JOIN queries or eager loading to fetch related data in one query";
  PerformanceHint.CodeExample := example_N1QueryLoop;
  PerformanceHint.LineNumber := line;
  PerformanceHint.Severity := "critical" |}.

Definition hintN1Range (line : Z) : PerformanceHint.t := {|
  PerformanceHint.Issue := "N+1 Query in Range Loop";
  PerformanceHint.Impact :=
    "🔴 CRITICAL: Database call inside range loop creates N+1 queries";
  PerformanceHint.Solution :=
    "Extract database calls outside the loop or use batch queries";
  PerformanceHint.CodeExample := example_N1QueryRange;
  PerformanceHint.LineNumber := line;
  PerformanceHint.Severity := "critical" |}.

Definition hintGormRelated : PerformanceHint.t := {|
  PerformanceHint.Issue := "GORM N+1 Query with Related()";
  PerformanceHint.Impact :=
    "🔴 CRITICAL: Each Related() call executes a separate query";
  PerformanceHint.Solution := "Use Preload() to fetch related data efficiently";
  PerformanceHint.CodeExample := example_GormRelated;
  PerformanceHint.LineNumber := 0;
  PerformanceHint.Severity := "critical" |}.

(** The findings of [detectPerformanceIssues], rule after rule. *)
Definition hintMissingIndex : PerformanceHint.t := {|
  PerformanceHint.Issue := "Potential Missing Database Index";
  PerformanceHint.Impact :=
    "🟠 HIGH: Query will scan entire table without proper index";
  PerformanceHint.Solution := "Add database index on frequently queried columns";
  PerformanceHint.CodeExample := example_MissingIndex;
  PerformanceHint.LineNumber := 0;
  PerformanceHint.Severity := "high" |}.

Definition hintLargePayload : PerformanceHint.t := {|
  PerformanceHint.Issue := "Large Dataset Response Without Pagination";
  PerformanceHint.Impact :=
    "🟠 HIGH: Returning large datasets will cause slow responses and high memory usage";
  PerformanceHint.Solution := "Implement pagination for large data responses";
  PerformanceHint.CodeExample := example_LargePayload;
  PerformanceHint.LineNumber := 0;
  PerformanceHint.Severity := "high" |}.

Definition hintMissingCaching : PerformanceHint.t := {|
  PerformanceHint.Issue := "Expensive Operation Without Caching";
  PerformanceHint.Impact :=
    "🟡 MEDIUM: Repeated expensive calculations will slow down your API";
  PerformanceHint.Solution :=
    "Cache expensive operation results with Redis or in-memory cache";
  PerformanceHint.CodeExample := example_MissingCaching;
  PerformanceHint.LineNumber := 0;
  PerformanceHint.Severity := "medium" |}.

Definition hintInMemoryStorage : PerformanceHint.t := {|
  PerformanceHint.Issue := "In-memory data storage";
  PerformanceHint.Impact :=
    "🟡 MEDIUM: Data lost on restart, not scalable, memory leaks";
  PerformanceHint.Solution :=
    "Implement database persistence (PostgreSQL, MongoDB, etc.)";
  PerformanceHint.CodeExample := example_InMemoryStorage;
  PerformanceHint.LineNumber := 0;
  PerformanceHint.Severity := "medium" |}.

Definition hintConnectionPooling : PerformanceHint.t := {|
  PerformanceHint.Issue := "No database connection pooling";
  PerformanceHint.Impact := "🟠 HIGH: Resource exhaustion, poor scalability";
  PerformanceHint.Solution := "Configure connection pool settings";
  PerformanceHint.CodeExample := example_ConnectionPooling;
  PerformanceHint.LineNumber := 0;
  PerformanceHint.Severity := "high" |}.

(** The findings that come from the text alone, after the loop scans. *)
Definition textualHints (code : string) : list PerformanceHint.t :=
  ((if Contains code "for" && Contains code ".Related(" then [hintGormRelated] else [])
   ++ (if existsb (fun pattern => Contains code pattern) wherePatterns
       then [hintMissingIndex] else [])
   ++ (if (Contains code "c.JSON" || Contains code "json.Marshal")
          && (Contains code ".Find(&" || Contains code "SELECT *")
          && negb (Contains code "Limit") && negb (Contains code "LIMIT")
       then [hintLargePayload] else [])
   ++ (if existsb (fun op => Contains code op && negb (Contains code "cache")
                             && negb (Contains code "Cache")) expensiveOperations
       then [hintMissingCaching] else [])
   ++ (if Contains code "var albums = []" || Contains code "albums = append("
       then [hintInMemoryStorage] else [])
   ++ (if Contains code "sql.Open" && negb (Contains code "SetMaxOpenConns")
       then [hintConnectionPooling] else []))%list.

Definition hintsNamed (issue : string) (hints : list PerformanceHint.t)
  : list PerformanceHint.t :=
  filter (fun hint => String.eqb (PerformanceHint.Issue hint) issue) hints.

(* ================================================================= *)
(** ** Vocabulary of the properties: scoring *)

(** Weight of a finding by its severity. *)
Definition severityWeight (severity : string) : Z :=
  if String.eqb severity "critical" then 25
  else if String.eqb severity "high" then 15
  else if String.eqb severity "medium" then 10
  else if String.eqb severity "low" then 5
  else 0.

(** The summed weights of a list of performance findings. *)
Definition totalPenalty (hints : list PerformanceHint.t) : Z :=
  fold_right (fun hint total => severityWeight (PerformanceHint.Severity hint) + total)
             0 hints.

(** Grade bands, by inclusive lower bounds. *)
Inductive gradeBand : Z -> string -> Prop :=
| band_A_plus score : 95 <= score -> gradeBand score "A+"
| band_A score : 90 <= score < 95 -> gradeBand score "A"
| band_B score : 80 <= score < 90 -> gradeBand score "B"
| band_C score : 70 <= score < 80 -> gradeBand score "C"
| band_D score : 60 <= score < 70 -> gradeBand score "D"
| band_F score : score < 60 -> gradeBand score "F".

Definition grades : list string := ["A+"; "A"; "B"; "C"; "D"; "F"].

(** The score loop of [calculatePerformanceScore]. *)
Definition scoreStep (score : Z) (hint : PerformanceHint.t) : Z :=
  if String.eqb (PerformanceHint.Severity hint) "critical" then score - 25
  else if String.eqb (PerformanceHint.Severity hint) "high" then score - 15
  else if String.eqb (PerformanceHint.Severity hint) "medium" then score - 10
  else if String.eqb (PerformanceHint.Severity hint) "low" then score - 5
  else score.

(** The grade switch of [calculatePerformanceScore]. *)
Definition gradeOf (score : Z) : string :=
  if score >=? 95 then "A+"
  else if score >=? 90 then "A"
  else if score >=? 80 then "B"
  else if score >=? 70 then "C"
  else if score >=? 60 then "D"
  else "F".

(** The score computed on 64-bit machine integers, for comparison. *)
Definition wrapInt64 (z : Z) : Z := (z + 2 ^ 63) mod 2 ^ 64 - 2 ^ 63.

Definition calculatePerformanceScore_int64 (hints : slice PerformanceHint.t)
  : Z * string :=
  let score := 100 in
  let score :=
    fold_left (fun score hint =>
      if String.eqb (PerformanceHint.Severity hint) "critical" then wrapInt64 (score - 25)
      else if String.eqb (PerformanceHint.Severity hint) "high" then wrapInt64 (score - 15)
      else if String.eqb (PerformanceHint.Severity hint) "medium" then wrapInt64 (score - 10)
      else if String.eqb (PerformanceHint.Severity hint) "low" then wrapInt64 (score - 5)
      else score) (elems hints) score in
  let score := if score <? 0 then 0 else score in
  let grade :=
    if score >=? 95 then "A+"
    else if score >=? 90 then "A"
    else if score >=? 80 then "B"
    else if score >=? 70 then "C"
    else if score >=? 60 then "D"
    else "F" in
  (score, grade).

(* ================================================================= *)
(** ** Vocabulary of the properties: texts no rule reacts to *)

(** Every literal a rule searches the text for, be it to raise a
    finding or to hold one back. *)
Definition ruleLiterals : list string :=
  ([ "cors"; "CORS"; "BindJSON"; "StatusBadRequest";
     "password"; "secret"; "token";
     "SELECT"; "INSERT"; "UPDATE"; "DELETE"; "Prepare"; "?";
     "for"; ".Related(" ]
   ++ wherePatterns
   ++ [ "c.JSON"; "json.Marshal"; ".Find(&"; "SELECT *"; "Limit"; "LIMIT" ]
   ++ expensiveOperations
   ++ [ "cache"; "Cache";
        "var albums = []"; "albums = append("; "sql.Open"; "SetMaxOpenConns";
        "middleware"; "Logger"; ("Run(" ++ dq ++ "localhost:8080" ++ dq ++ ")")%string;
        "func get"; "func post"; "Recovery()"; "/v1/"; "/api/v"; "_test.go" ])%list.

(** None of them occurs in the text. *)
Definition noRuleLiteral (code : string) : bool :=
  forallb (fun literal => negb (Contains code literal)) ruleLiterals.

(* ================================================================= *)
(** ** A syntax provider on sample sources

    [go/parser] is not part of the package.  For running the engine on
    concrete inputs, [sampleParseFile] tabulates what the parser
    returns on a few sources: the trees below are written out by hand
    in the shape [go/ast] gives them, every other text is turned away. *)

Definition tab : string := String (ascii_of_nat 9) EmptyString.

(** Node kinds of [go/ast] the engine does not tell apart. *)
Definition File (children : list Node) : Node := OtherNode children.
Definition GenDecl (specs : list Node) : Node := OtherNode specs.
Definition ImportSpec (path : Node) : Node := OtherNode [path].
Definition BasicLit : Node := OtherNode [].
Definition FuncDecl (name type body : Node) : Node := OtherNode [name; type; body].
Definition FuncType (fields : list Node) : Node := OtherNode fields.
Definition FieldList (fields : list Node) : Node := OtherNode fields.
Definition Field (children : list Node) : Node := OtherNode children.
Definition BlockStmt (stmts : list Node) : Node := OtherNode stmts.
Definition ExprStmt (x : Node) : Node := OtherNode [x].
Definition AssignStmt (lhs rhs : list Node) : Node := OtherNode (lhs ++ rhs)%list.
Definition ReturnStmt (results : list Node) : Node := OtherNode results.
Definition DeferStmt (call : Node) : Node := OtherNode [call].
Definition BinaryExpr (x y : Node) : Node := OtherNode [x; y].
Definition UnaryExpr (x : Node) : Node := OtherNode [x].
Definition StarExpr (x : Node) : Node := OtherNode [x].
Definition ArrayType (elt : Node) : Node := OtherNode [elt].

(** Positions of a file without line directives, the first file of a
    fresh file set: [Pos] is the byte offset plus 1. *)
Fixpoint lineColumn (src : string) (offset : nat) (line column : Z) : Z * Z :=
  match offset, src with
  | O, _ | _, EmptyString => (line, column)
  | S k, String c rest =>
      if Ascii.eqb c (ascii_of_nat 10) then lineColumn rest k (line + 1) 1
      else lineColumn rest k line (column + 1)
  end.

Definition sampleFileSet (filename src : string) : FileSet :=
  fun p =>
    let (line, column) := lineColumn src (Z.to_nat (p - 1)) 1 1 in
    {| Filename := filename; Offset := p - 1; Line := line; Column := column |}.

(** The "simple valid Go code" of the test suite. *)
Definition helloWorld_src : string :=
  lines [
    "package main";
    "";
    "import " ++ dq ++ "fmt" ++ dq;
    "";
    "func main() {";
    tab ++ "fmt.Println(" ++ dq ++ "Hello, World!" ++ dq ++ ")";
    "}"
  ].

Definition helloWorld_ast : Node :=
  File [
    Ident "main";
    GenDecl [ImportSpec BasicLit];
    FuncDecl (Ident "main") (FuncType [FieldList []])
      (BlockStmt [
         ExprStmt (CallExpr (SelectorExpr (Ident "fmt") "Println") [BasicLit])
       ])
  ].

(** The "SQL injection vulnerability" source of the test suite. *)
Definition sqlQuery_src : string :=
  lines [
    "package main";
    "";
    "import (";
    tab ++ dq ++ "database/sql" ++ dq;
    tab ++ dq ++ "fmt" ++ dq;
    ")";
    "";
    "func getUserByID(db *sql.DB, userID string) error {";
    tab ++ "query := " ++ dq ++ "SELECT * FROM users WHERE id = " ++ dq ++ " + userID";
    tab ++ "rows, err := db.Query(query)";
    tab ++ "if err != nil {";
    tab ++ tab ++ "return err";
    tab ++ "}";
    tab ++ "defer rows.Close()";
    tab ++ "return nil";
    "}"
  ].

Definition sqlQuery_ast : Node :=
  File [
    Ident "main";
    GenDecl [ImportSpec BasicLit; ImportSpec BasicLit];
    FuncDecl (Ident "getUserByID")
      (FuncType [
         FieldList [
           Field [Ident "db"; StarExpr (SelectorExpr (Ident "sql") "DB")];
           Field [Ident "userID"; Ident "string"]
         ];
         FieldList [Field [Ident "error"]]
       ])
      (BlockStmt [
         AssignStmt [Ident "query"] [BinaryExpr BasicLit (Ident "userID")];
         AssignStmt [Ident "rows"; Ident "err"]
           [CallExpr (SelectorExpr (Ident "db") "Query") [Ident "query"]];
         IfStmt [
           BinaryExpr (Ident "err") (Ident "nil");
           BlockStmt [ReturnStmt [Ident "err"]]
         ];
         DeferStmt (CallExpr (SelectorExpr (Ident "rows") "Close") []);
         ReturnStmt [Ident "nil"]
       ])
  ].

(** A range loop with one query per element. *)
Definition rangeLoop_src : string :=
  lines [
    "package main";
    "";
    "func loadPosts(db *gorm.DB, users []User) {";
    tab ++ "for _, user := range users {";
    tab ++ tab ++ "db.Find(&user.Posts)";
    tab ++ "}";
    "}"
  ].

Definition rangeLoop_ast : Node :=
  File [
    Ident "main";
    FuncDecl (Ident "loadPosts")
      (FuncType [
         FieldList [
           Field [Ident "db"; StarExpr (SelectorExpr (Ident "gorm") "DB")];
           Field [Ident "users"; ArrayType (Ident "User")]
         ]
       ])
      (BlockStmt [
         RangeStmt 60 [
           Ident "_"; Ident "user"; Ident "users";
           BlockStmt [
             ExprStmt (CallExpr (SelectorExpr (Ident "db") "Find")
                         [UnaryExpr (SelectorExpr (Ident "user") "Posts")])
           ]
         ]
       ])
  ].

(** The "invalid Go code" of the test suite. *)
Definition invalid_src : string := "this is not valid Go code".

Definition sampleParseFile : Parser :=
  fun filename src =>
    if String.eqb src helloWorld_src then
      ParseOk (sampleFileSet filename src) helloWorld_ast
    else if String.eqb src sqlQuery_src then
      ParseOk (sampleFileSet filename src) sqlQuery_ast
    else if String.eqb src rangeLoop_src then
      ParseOk (sampleFileSet filename src) rangeLoop_ast
    else if String.eqb src "" then
      ParseError (filename ++ ":1:1: expected 'package', found 'EOF'")
    else if String.eqb src invalid_src then
      ParseError (filename ++ ":1:1: expected 'package', found this")
    else
      ParseError (filename ++ ": not one of the sample sources").

(* ================================================================= *)
(** ** Traversals *)

Lemma subnodes_children (node : Node) :
  subnodes node = node :: flat_map subnodes (childrenOf node).
Proof.
  destruct node; reflexivity.
Qed.

Lemma Inspect_unfold {S : Type} (f : option Node -> S -> bool * S) node s :
  Inspect f node s =
  if fst (f (Some node) s)
  then snd (f None (InspectList f (childrenOf node) (snd (f (Some node) s))))
  else snd (f (Some node) s).
Proof.
  assert (W : forall l s0,
    (fix walkList (list : list Node) (s : S) {struct list} : S :=
       match list with
       | [] => s
       | x :: rest => walkList rest (Inspect f x s)
       end) l s0 = InspectList f l s0).
  { induction l as [|x l IH]; intros s0; simpl; [reflexivity | apply IH]. }
  destruct node; simpl; destruct (f _ s) as [d s1]; simpl;
    destruct d; try reflexivity; try (now rewrite W).
Qed.

(** A closure that always answers [true] and ignores the closing
    [f(nil)] sees every node of the tree once, in traversal order. *)
Lemma Inspect_visits_all {S : Type} (f : option Node -> S -> bool * S)
    (step : Node -> S -> S) :
  (forall n s, f (Some n) s = (true, step n s)) ->
  (forall s, snd (f None s) = s) ->
  forall node s,
    Inspect f node s = fold_left (fun s n => step n s) (subnodes node) s.
Proof.
  intros Hsome Hnone.
  assert (L : forall l, Forall (fun n => forall s,
              Inspect f n s = fold_left (fun s n => step n s) (subnodes n) s) l ->
            forall s, InspectList f l s
                      = fold_left (fun s n => step n s) (flat_map subnodes l) s).
  { induction 1 as [|x l Hx _ IH]; intros s; simpl; [reflexivity|].
    rewrite fold_left_app, <- Hx. apply IH. }
  induction node using Node_ind; intros s;
    rewrite Inspect_unfold, subnodes_children, Hsome, Hnone;
    cbn [fst snd fold_left]; apply L; cbn [childrenOf];
    repeat constructor; auto.
  intros s0. rewrite Inspect_unfold, Hsome, Hnone. reflexivity.
Qed.

Lemma Inspect_findDBCall node :
  forall b, Inspect findDBCall node b = b || containsDBCall node.
Proof.
  assert (L : forall l, Forall (fun n => forall b,
              Inspect findDBCall n b = b || containsDBCall n) l ->
            forall b, InspectList findDBCall l b
                      = b || existsb isDBCall (flat_map subnodes l)).
  { induction 1 as [|x l Hx _ IH]; intros b; simpl.
    - now rewrite orb_false_r.
    - unfold InspectList in *. simpl. rewrite IH, Hx, existsb_app.
      unfold containsDBCall. now rewrite orb_assoc. }
  unfold containsDBCall.
  induction node using Node_ind; intros b;
    rewrite Inspect_unfold, subnodes_children;
    cbn [existsb];
    try (cbn [findDBCall isDBCall fst snd childrenOf]; rewrite L by assumption;
         reflexivity).
  - (* CallExpr *)
    cbn [findDBCall]. destruct (isDBCall (CallExpr node args)) eqn:E.
    + cbn [fst snd]. now rewrite orb_true_r.
    + cbn [fst snd childrenOf]. rewrite L by (constructor; assumption).
      reflexivity.
  - (* SelectorExpr *)
    cbn [findDBCall isDBCall fst snd childrenOf].
    rewrite L; [reflexivity|].
    constructor; [assumption|]. constructor; [|constructor].
    intros b0. rewrite Inspect_unfold. cbn. now rewrite orb_false_r.
  - (* Ident *)
    cbn. now rewrite orb_false_r.
Qed.

(* ================================================================= *)
(** ** The string search *)

Lemma prefix_iff (p s : string) :
  String.prefix p s = true <-> exists after, s = p ++ after.
Proof.
  revert s. induction p as [|a p IH]; intros s; simpl.
  - split; [intros _; now exists s | intros _; now destruct s].
  - destruct s as [|b s].
    + split; [discriminate | intros [after H]; discriminate].
    + simpl. destruct (ascii_dec a b) as [Hab|Hab].
      * subst b. rewrite IH. split; intros [after H]; exists after.
        -- now rewrite H.
        -- now injection H.
      * split; [discriminate | intros [after H]].
        injection H as H1 _. now elim Hab.
Qed.

Lemma Contains_unfold (s substr : string) :
  Contains s substr =
  if String.prefix substr s then true
  else match s with
       | EmptyString => false
       | String _ rest => Contains rest substr
       end.
Proof. destruct s; reflexivity. Qed.

Theorem Contains_iff (s substr : string) :
  Contains s substr = true <-> occurs substr s.
Proof.
  unfold occurs. induction s as [|c s IH]; rewrite Contains_unfold;
    destruct (String.prefix substr _) eqn:E.
  - split; [intros _ | reflexivity].
    apply prefix_iff in E. destruct E as [after E]. now exists "", after.
  - split; [discriminate | intros [before [after H]]].
    destruct before as [|? ?]; [|discriminate]. simpl in H.
    assert (String.prefix substr "" = true) by (apply prefix_iff; now exists after).
    congruence.
  - split; [intros _ | reflexivity].
    apply prefix_iff in E. destruct E as [after E]. now exists "", after.
  - rewrite IH. split.
    + intros [before [after H]]. exists (String c before), after.
      simpl. now rewrite H.
    + intros [before [after H]]. destruct before as [|c' before].
      * simpl in H.
        assert (String.prefix substr (String c s) = true)
          by (apply prefix_iff; now exists after).
        congruence.
      * simpl in H. injection H as _ H. now exists before, after.
Qed.

Lemma Contains_false_iff (s substr : string) :
  Contains s substr = false <-> ~ occurs substr s.
Proof.
  rewrite <- Contains_iff. destruct (Contains s substr); split; congruence.
Qed.

(* ================================================================= *)
(** ** Slices *)

Lemma elems_append {A : Type} (s : slice A) (x : A) :
  elems (append s x) = (elems s ++ [x])%list.
Proof. reflexivity. Qed.

Lemma elems_appendSlice {A : Type} (s t : slice A) :
  elems (appendSlice s t) = (elems s ++ elems t)%list.
Proof.
  unfold appendSlice. destruct (elems t) eqn:E; simpl.
  - now rewrite app_nil_r.
  - reflexivity.
Qed.

(* ================================================================= *)
(** ** The score loop and the grade bands *)

Lemma scoreStep_weight score hint :
  scoreStep score hint = score - severityWeight (PerformanceHint.Severity hint).
Proof.
  unfold scoreStep, severityWeight.
  repeat match goal with |- context [String.eqb ?a ?b] => destruct (String.eqb a b) end;
    lia.
Qed.

Lemma severityWeight_range severity : 0 <= severityWeight severity <= 25.
Proof.
  unfold severityWeight.
  repeat match goal with |- context [String.eqb ?a ?b] => destruct (String.eqb a b) end;
    lia.
Qed.

Lemma totalPenalty_nonneg hints : 0 <= totalPenalty hints.
Proof.
  induction hints as [|h l IH]; simpl; [lia|].
  pose proof (severityWeight_range (PerformanceHint.Severity h)). lia.
Qed.

Lemma totalPenalty_severities l1 l2 :
  map PerformanceHint.Severity l1 = map PerformanceHint.Severity l2 ->
  totalPenalty l1 = totalPenalty l2.
Proof.
  revert l2. induction l1 as [|h l IH]; intros [|h2 l2] H; simpl in *;
    try discriminate; [reflexivity|].
  injection H as H1 H2. rewrite H1, (IH _ H2). reflexivity.
Qed.

Lemma totalPenalty_In hint hints :
  In hint hints -> severityWeight (PerformanceHint.Severity hint) <= totalPenalty hints.
Proof.
  induction hints as [|h l IH]; simpl; [tauto|].
  pose proof (totalPenalty_nonneg l).
  pose proof (severityWeight_range (PerformanceHint.Severity h)).
  intros [->|Hin]; [lia | specialize (IH Hin); lia].
Qed.

Lemma score_loop hints score :
  fold_left scoreStep hints score = score - totalPenalty hints.
Proof.
  revert score. induction hints as [|h l IH]; intros score; simpl; [lia|].
  rewrite IH, scoreStep_weight. lia.
Qed.

Lemma gradeOf_band score : gradeBand score (gradeOf score).
Proof.
  unfold gradeOf.
  repeat match goal with
         | |- context [?a >=? ?b] => destruct (Z.geb_spec a b)
         end; constructor; lia.
Qed.

Lemma gradeBand_unique score g1 g2 :
  gradeBand score g1 -> gradeBand score g2 -> g1 = g2.
Proof. intros H1 H2; inversion H1; inversion H2; subst; try reflexivity; lia. Qed.

Lemma gradeBand_grades score grade : gradeBand score grade -> In grade grades.
Proof. intros H; inversion H; subst; simpl; tauto. Qed.

Lemma calculatePerformanceScore_eq hints :
  calculatePerformanceScore hints =
  (Z.max 0 (100 - totalPenalty (elems hints)),
   gradeOf (Z.max 0 (100 - totalPenalty (elems hints)))).
Proof.
  unfold calculatePerformanceScore.
  change (fold_left _ (elems hints) 100) with (fold_left scoreStep (elems hints) 100).
  rewrite score_loop.
  assert (E : (if 100 - totalPenalty (elems hints) <? 0 then 0
               else 100 - totalPenalty (elems hints))
              = Z.max 0 (100 - totalPenalty (elems hints))).
  { destruct (Z.ltb_spec (100 - totalPenalty (elems hints)) 0); lia. }
  rewrite E. reflexivity.
Qed.

Lemma wrapInt64_small z : - 2 ^ 63 <= z < 2 ^ 63 -> wrapInt64 z = z.
Proof. intros H. unfold wrapInt64. rewrite Z.mod_small; lia. Qed.

(** A slice of [PerformanceHint] has far fewer than [2 ^ 58] elements
    (each takes 88 bytes), and then the subtraction never wraps. *)
Lemma calculatePerformanceScore_int64_agrees hints :
  Z.of_nat (length (elems hints)) <= 2 ^ 58 ->
  calculatePerformanceScore_int64 hints = calculatePerformanceScore hints.
Proof.
  intros Hlen.
  assert (G : forall l score,
      - 2 ^ 63 + 25 * Z.of_nat (length l) <= score <= 100 ->
      fold_left (fun score hint =>
        if String.eqb (PerformanceHint.Severity hint) "critical" then wrapInt64 (score - 25)
        else if String.eqb (PerformanceHint.Severity hint) "high" then wrapInt64 (score - 15)
        else if String.eqb (PerformanceHint.Severity hint) "medium" then wrapInt64 (score - 10)
        else if String.eqb (PerformanceHint.Severity hint) "low" then wrapInt64 (score - 5)
        else score) l score = fold_left scoreStep l score).
  { induction l as [|h l IH]; intros score Hs; [reflexivity|].
    cbn [fold_left length] in *. unfold scoreStep at 2.
    repeat match goal with
           | |- context [String.eqb ?a ?b] => destruct (String.eqb a b)
           end;
      try rewrite wrapInt64_small by lia; apply IH; lia. }
  unfold calculatePerformanceScore_int64, calculatePerformanceScore. cbv zeta.
  rewrite G by lia. reflexivity.
Qed.

(* ================================================================= *)
(** ** The detectors, rule after rule *)

Lemma loop_scan_elems (fset : FileSet) (pick : Node -> list Pos)
    (mk : Z -> PerformanceHint.t) (l : list Node) (hints : slice PerformanceHint.t) :
  elems (fold_left (fun hints n =>
           match pick n with
           | [] => hints
           | p :: _ => append hints (mk (Line (fset p)))
           end) l hints)
  = (elems hints
     ++ map (fun p => mk (Line (fset p)))
            (flat_map (fun n => firstn 1 (pick n)) l))%list.
Proof.
  revert hints. induction l as [|n l IH]; intros hints; simpl.
  - now rewrite app_nil_r.
  - rewrite IH. destruct (pick n) as [|p ps]; simpl; [reflexivity|].
    now rewrite <- app_assoc.
Qed.

Lemma detectN1QueryPatterns_elems node fset code :
  elems (detectN1QueryPatterns node fset code) =
  (map (fun p => hintN1Loop (Line (fset p))) (forLoopsWithDBCall node)
   ++ map (fun p => hintN1Range (Line (fset p))) (rangeLoopsWithDBCall node)
   ++ (if Contains code "for" && Contains code ".Related(" then [hintGormRelated]
       else []))%list.
Proof.
  unfold detectN1QueryPatterns. cbv zeta.
  set (pickFor := fun n => match n with
                           | ForStmt For _ => if containsDBCall n then [For] else []
                           | _ => []
                           end).
  set (pickRange := fun n => match n with
                             | RangeStmt For _ => if containsDBCall n then [For] else []
                             | _ => []
                             end).
  rewrite (Inspect_visits_all _
            (fun n hints => match pickRange n with
                            | [] => hints
                            | p :: _ => append hints (hintN1Range (Line (fset p)))
                            end)).
  2: { intros [] s; try reflexivity.
       cbv beta iota zeta. rewrite Inspect_findDBCall. cbn [orb]. unfold pickRange.
       destruct (containsDBCall _); reflexivity. }
  2: { reflexivity. }
  rewrite (Inspect_visits_all _
            (fun n hints => match pickFor n with
                            | [] => hints
                            | p :: _ => append hints (hintN1Loop (Line (fset p)))
                            end)).
  2: { intros [] s; try reflexivity.
       cbv beta iota zeta. rewrite Inspect_findDBCall. cbn [orb]. unfold pickFor.
       destruct (containsDBCall _); reflexivity. }
  2: { reflexivity. }
  assert (F1 : forall l, flat_map (fun n => firstn 1 (pickFor n)) l = flat_map pickFor l).
  { intros l. apply flat_map_ext. intros []; simpl; try reflexivity.
    destruct (containsDBCall _); reflexivity. }
  assert (F2 : forall l, flat_map (fun n => firstn 1 (pickRange n)) l
                         = flat_map pickRange l).
  { intros l. apply flat_map_ext. intros []; simpl; try reflexivity.
    destruct (containsDBCall _); reflexivity. }
  destruct (Contains code "for" && Contains code ".Related(").
  - rewrite elems_append, !loop_scan_elems, F1, F2. simpl.
    now rewrite <- app_assoc.
  - rewrite !loop_scan_elems, F1, F2. simpl. now rewrite app_nil_r.
Qed.

Lemma AnalyzeCode_parse_error (ParseFile : Parser) now code codeType filePath err :
  ParseFile filePath code = ParseError err ->
  AnalyzeCode ParseFile now code codeType filePath =
  {| SecurityIssues := Some [syntaxErrorIssue err];
     PerformanceHints := Some [];
     BestPractices := Some [];
     AIRecommendations := Some [];
     AnalysisTime := now;
     CodeComplexity := 0;
     PerformanceScore := 0;
     PerformanceGrade := "";
     FilePath := filePath |}.
Proof. intros H. unfold AnalyzeCode. rewrite H. reflexivity. Qed.

Lemma AnalyzeCode_parsed (ParseFile : Parser) now code codeType filePath fset node :
  ParseFile filePath code = ParseOk fset node ->
  AnalyzeCode ParseFile now code codeType filePath =
  {| SecurityIssues := detectSecurityIssues node fset code;
     PerformanceHints := detectPerformanceIssues node fset code;
     BestPractices := suggestBestPractices node fset code;
     AIRecommendations := generateAIRecommendations code codeType;
     AnalysisTime := now;
     CodeComplexity := calculateComplexity node;
     PerformanceScore := fst (calculatePerformanceScore
                                (detectPerformanceIssues node fset code));
     PerformanceGrade := snd (calculatePerformanceScore
                                (detectPerformanceIssues node fset code));
     FilePath := filePath |}.
Proof.
  intros H. unfold AnalyzeCode. rewrite H.
  destruct (calculatePerformanceScore _) as [score grade]. reflexivity.
Qed.

(** A loop that appends one finding at the first entry that qualifies
    and breaks. *)
Lemma first_match_loop (test : string -> bool) (hint : PerformanceHint.t)
    (l : list string) (hints : slice PerformanceHint.t) :
  (fix loop (l : list string) (hints : slice PerformanceHint.t) :=
     match l with
     | [] => hints
     | x :: rest => if test x then append hints hint else loop rest hints
     end) l hints
  = if existsb test l then append hints hint else hints.
Proof.
  induction l as [|x l IH]; [reflexivity|].
  cbn [existsb]. destruct (test x); [reflexivity | exact IH].
Qed.

Lemma detectMissingIndexes_eq node fset code :
  detectMissingIndexes node fset code =
  if existsb (fun pattern => Contains code pattern) wherePatterns
  then append None hintMissingIndex else None.
Proof.
  unfold detectMissingIndexes. cbv zeta.
  exact (first_match_loop (fun pattern => Contains code pattern)
           hintMissingIndex wherePatterns None).
Qed.

Lemma detectMissingCaching_eq node fset code :
  detectMissingCaching node fset code =
  if existsb (fun op => Contains code op && negb (Contains code "cache")
                        && negb (Contains code "Cache")) expensiveOperations
  then append None hintMissingCaching else None.
Proof.
  unfold detectMissingCaching. cbv zeta.
  exact (first_match_loop
           (fun op => Contains code op && negb (Contains code "cache")
                      && negb (Contains code "Cache"))
           hintMissingCaching expensiveOperations None).
Qed.

Lemma detectPerformanceIssues_elems node fset code :
  elems (detectPerformanceIssues node fset code) =
  (map (fun p => hintN1Loop (Line (fset p))) (forLoopsWithDBCall node)
   ++ map (fun p => hintN1Range (Line (fset p))) (rangeLoopsWithDBCall node)
   ++ textualHints code)%list.
Proof.
  unfold detectPerformanceIssues, textualHints. cbv zeta.
  assert (E : forall (c : bool) (s : slice PerformanceHint.t) h,
             elems (if c then append s h else s)
             = (elems s ++ (if c then [h] else []))%list).
  { intros [] s h; simpl; [reflexivity | now rewrite app_nil_r]. }
  rewrite !E, !elems_appendSlice, detectN1QueryPatterns_elems.
  rewrite detectMissingIndexes_eq, detectMissingCaching_eq.
  unfold detectLargePayloadIssues. cbv zeta. rewrite !E. simpl (elems None).
  fold hintMissingIndex hintLargePayload hintMissingCaching
       hintInMemoryStorage hintConnectionPooling.
  simpl app at 1. rewrite <- !app_assoc. reflexivity.
Qed.

Lemma textualHints_severity code :
  Forall (fun hint => In (PerformanceHint.Severity hint) ["critical"; "high"; "medium"])
         (textualHints code).
Proof.
  unfold textualHints.
  repeat (apply Forall_app; split);
    match goal with |- Forall _ (if ?c then _ else _) => destruct c end;
    repeat constructor; simpl; tauto.
Qed.

Lemma detectPerformanceIssues_severity node fset code :
  Forall (fun hint => In (PerformanceHint.Severity hint) ["critical"; "high"; "medium"])
         (elems (detectPerformanceIssues node fset code)).
Proof.
  rewrite detectPerformanceIssues_elems.
  apply Forall_app; split; [|apply Forall_app; split].
  - apply Forall_map, Forall_forall. intros; simpl; tauto.
  - apply Forall_map, Forall_forall. intros; simpl; tauto.
  - apply textualHints_severity.
Qed.

Lemma detectSecurityIssues_elems node fset code :
  elems (detectSecurityIssues node fset code) =
  ((if negb (Contains code "cors") && negb (Contains code "CORS")
    then [issueMissingCors] else [])
   ++ (if Contains code "BindJSON" && negb (Contains code "StatusBadRequest")
       then [issueErrorHandling] else [])
   ++ (if Contains code "password" || Contains code "secret" || Contains code "token"
       then [issueHardcodedSecrets] else [])
   ++ (if Contains code "SELECT" || Contains code "INSERT"
          || Contains code "UPDATE" || Contains code "DELETE"
       then if negb (Contains code "Prepare") && negb (Contains code "?")
            then [issueSqlInjection] else []
       else []))%list.
Proof.
  unfold detectSecurityIssues. cbv zeta.
  destruct (negb (Contains code "cors") && negb (Contains code "CORS"));
    destruct (Contains code "BindJSON" && negb (Contains code "StatusBadRequest"));
    destruct (Contains code "password" || Contains code "secret" || Contains code "token");
    destruct (Contains code "SELECT" || Contains code "INSERT"
              || Contains code "UPDATE" || Contains code "DELETE");
    destruct (negb (Contains code "Prepare") && negb (Contains code "?"));
    reflexivity.
Qed.

(* ================================================================= *)
(** ** Data-access calls and findings by name *)

Lemma isDBCall_iff n : isDBCall n = true <-> dataAccessCall n.
Proof.
  unfold dataAccessCall. split.
  - destruct n as [| | | | |fn args| | |]; try discriminate.
    destruct fn as [| | | | | |x sel| |]; try discriminate.
    unfold isDBCall. rewrite existsb_exists. intros [m [Hin Heq]].
    apply String.eqb_eq in Heq. subst m. now exists x, sel, args.
  - intros [x [sel [args [-> Hin]]]]. unfold isDBCall.
    rewrite existsb_exists. exists sel. split; [exact Hin | apply String.eqb_refl].
Qed.

(** [Query], the method the loop of the test suite calls, is no name
    of the catalogue. *)
Lemma Query_is_no_database_call x args :
  isDBCall (CallExpr (SelectorExpr x "Query") args) = false.
Proof. reflexivity. Qed.

Lemma containsDBCall_iff node :
  containsDBCall node = true <-> containsDataAccessCall node.
Proof.
  unfold containsDBCall, containsDataAccessCall. rewrite existsb_exists.
  split; intros [call [Hin H]]; exists call; (split; [exact Hin|]);
    now apply isDBCall_iff.
Qed.

Lemma forLoopsWithDBCall_In node p children :
  In (ForStmt p children) (subnodes node) ->
  containsDBCall (ForStmt p children) = true ->
  In p (forLoopsWithDBCall node).
Proof.
  intros Hin Hdb. unfold forLoopsWithDBCall. apply in_flat_map.
  exists (ForStmt p children). split; [exact Hin|]. rewrite Hdb. now left.
Qed.

Lemma rangeLoopsWithDBCall_In node p children :
  In (RangeStmt p children) (subnodes node) ->
  containsDBCall (RangeStmt p children) = true ->
  In p (rangeLoopsWithDBCall node).
Proof.
  intros Hin Hdb. unfold rangeLoopsWithDBCall. apply in_flat_map.
  exists (RangeStmt p children). split; [exact Hin|]. rewrite Hdb. now left.
Qed.

Lemma hintsNamed_app issue l1 l2 :
  hintsNamed issue (l1 ++ l2) = (hintsNamed issue l1 ++ hintsNamed issue l2)%list.
Proof. apply filter_app. Qed.

Lemma hintsNamed_map_all {A : Type} issue (mk : A -> PerformanceHint.t) l :
  (forall a, String.eqb (PerformanceHint.Issue (mk a)) issue = true) ->
  hintsNamed issue (map mk l) = map mk l.
Proof.
  intros H. induction l as [|a l IH]; simpl; [reflexivity|].
  now rewrite H, IH.
Qed.

Lemma hintsNamed_map_none {A : Type} issue (mk : A -> PerformanceHint.t) l :
  (forall a, String.eqb (PerformanceHint.Issue (mk a)) issue = false) ->
  hintsNamed issue (map mk l) = [].
Proof.
  intros H. induction l as [|a l IH]; simpl; [reflexivity|].
  now rewrite H, IH.
Qed.

Lemma hintsNamed_textualHints issue code :
  existsb (String.eqb issue)
    ["Potential N+1 Query Pattern"; "N+1 Query in Range Loop"] = true ->
  hintsNamed issue (textualHints code) = [].
Proof.
  simpl. intros H. apply orb_true_iff in H.
  assert (E : issue = "Potential N+1 Query Pattern"
              \/ issue = "N+1 Query in Range Loop").
  { destruct H as [H|H]; [left|right; apply orb_true_iff in H;
                          destruct H as [H|H]; [|discriminate]];
      now apply String.eqb_eq in H. }
  unfold textualHints. rewrite !hintsNamed_app.
  destruct E as [-> | ->];
    repeat match goal with
           | |- context [if ?c then [_] else []] => destruct c
           end; reflexivity.
Qed.

(* ================================================================= *)
(** ** Texts no rule reacts to *)

Lemma noRuleLiteral_absent code :
  noRuleLiteral code = true ->
  forall literal, existsb (String.eqb literal) ruleLiterals = true ->
                  Contains code literal = false.
Proof.
  unfold noRuleLiteral. rewrite forallb_forall. intros H literal Hin.
  apply existsb_exists in Hin. destruct Hin as [l [Hl Heq]].
  apply String.eqb_eq in Heq. subst l.
  specialize (H _ Hl). now apply negb_true_iff in H.
Qed.

Ltac absent H :=
  repeat match goal with
         | |- context [Contains ?c ?l] => rewrite (H l eq_refl)
         end.

Lemma no_loop_no_loop_findings node :
  hasLoop node = false ->
  forLoopsWithDBCall node = [] /\ rangeLoopsWithDBCall node = [].
Proof.
  unfold hasLoop, forLoopsWithDBCall, rangeLoopsWithDBCall.
  induction (subnodes node) as [|n l IH]; simpl; [tauto|].
  intros H. apply orb_false_iff in H. destruct H as [Hn Hl].
  destruct (IH Hl) as [-> ->].
  destruct n; try discriminate; simpl; tauto.
Qed.

(* ================================================================= *)
(** ** The sample syntax provider at work *)

(** The sample provider turns the "invalid Go code" away. *)
Lemma sampleParseFile_invalid filename :
  sampleParseFile filename invalid_src
  = ParseError (filename ++ ":1:1: expected 'package', found this").
Proof. reflexivity. Qed.

(** The loop of the range-loop sample is a node of its tree and holds
    a data-access call. *)
Lemma rangeLoop_ast_contains_query :
  In (RangeStmt 60 [
        Ident "_"; Ident "user"; Ident "users";
        BlockStmt [
          ExprStmt (CallExpr (SelectorExpr (Ident "db") "Find")
                      [UnaryExpr (SelectorExpr (Ident "user") "Posts")])
        ]
      ]) (subnodes rangeLoop_ast)
  /\ containsDataAccessCall
       (RangeStmt 60 [
          Ident "_"; Ident "user"; Ident "users";
          BlockStmt [
            ExprStmt (CallExpr (SelectorExpr (Ident "db") "Find")
                        [UnaryExpr (SelectorExpr (Ident "user") "Posts")])
          ]
        ]).
Proof.
  split.
  - vm_compute. tauto.
  - apply containsDBCall_iff. reflexivity.
Qed.

(* ================================================================= *)
(** ** Scoring and the parse-failure path *)

Section Scoring.
  Variable ParseFile : Parser.
  Variable now : Time.
  Variables code codeType filePath : string.

(** C1: when the text parses, the score is 100 minus the summed
    severity weights of the performance findings (critical 25, high 15,
    medium 10, low 5; every finding has one of these severities), never
    below 0, and the grade is the one grade of the band the score falls
    in.
    Nothing but the performance findings enters: another run, on any
    other text, tree, dialect or path, whose performance findings have
    the same severities has the same score and grade, whatever its
    security findings, advisories and recommendations are. *)
Theorem score_is_clamped_penalty_sum (fset : FileSet) (node : Node) :
  ParseFile filePath code = ParseOk fset node ->
  let result := AnalyzeCode ParseFile now code codeType filePath in
  PerformanceScore result
    = Z.max 0 (100 - totalPenalty (elems (PerformanceHints result))) /\
  gradeBand (PerformanceScore result) (PerformanceGrade result) /\
  (forall grade,
     gradeBand (PerformanceScore result) grade -> grade = PerformanceGrade result) /\
  Forall (fun hint =>
            In (PerformanceHint.Severity hint) ["critical"; "high"; "medium"; "low"])
         (elems (PerformanceHints result)) /\
  forall (ParseFile' : Parser) now' code' codeType' filePath' fset' node',
    ParseFile' filePath' code' = ParseOk fset' node' ->
    let result' := AnalyzeCode ParseFile' now' code' codeType' filePath' in
    map PerformanceHint.Severity (elems (PerformanceHints result'))
      = map PerformanceHint.Severity (elems (PerformanceHints result)) ->
    PerformanceScore result' = PerformanceScore result /\
    PerformanceGrade result' = PerformanceGrade result.
Proof.
  intros Hparse. cbv zeta. rewrite (AnalyzeCode_parsed _ _ _ _ _ _ _ Hparse).
  cbn [PerformanceScore PerformanceGrade PerformanceHints].
  rewrite calculatePerformanceScore_eq. cbn [fst snd].
  split; [reflexivity|]. split; [apply gradeOf_band|]. split; [|split].
  - intros grade H. exact (gradeBand_unique _ _ _ H (gradeOf_band _)).
  - eapply Forall_impl; [|apply detectPerformanceIssues_severity].
    simpl. intros hint H. tauto.
  - intros ParseFile' now' code' codeType' filePath' fset' node' Hparse'.
    rewrite (AnalyzeCode_parsed _ _ _ _ _ _ _ Hparse').
    cbn [PerformanceScore PerformanceGrade PerformanceHints].
    rewrite calculatePerformanceScore_eq. cbn [fst snd].
    intros Hsev. rewrite (totalPenalty_severities _ _ Hsev). split; reflexivity.
Qed.

(** C2: when the text does not parse, the result holds exactly one
    security finding, of type syntax_error and severity high; the
    performance, best-practice and recommendation slices are empty and
    not nil; complexity, score and grade keep the values the result was
    initialised with (0, 0 and the empty string), which is not what the
    scoring step computes for no findings. *)
Theorem parse_failure_result (err : string) :
  ParseFile filePath code = ParseError err ->
  let result := AnalyzeCode ParseFile now code codeType filePath in
  (exists issue,
     SecurityIssues result = Some [issue] /\
     SecurityIssue.Type_ issue = "syntax_error" /\
     SecurityIssue.Severity issue = "high") /\
  PerformanceHints result = Some [] /\
  BestPractices result = Some [] /\
  AIRecommendations result = Some [] /\
  isNil (PerformanceHints result) = false /\
  isNil (BestPractices result) = false /\
  isNil (AIRecommendations result) = false /\
  CodeComplexity result = 0 /\
  PerformanceScore result = 0 /\
  PerformanceGrade result = "" /\
  calculatePerformanceScore (PerformanceHints result) = (100, "A+").
Proof.
  intros Hparse. cbv zeta. rewrite (AnalyzeCode_parse_error _ _ _ _ _ _ Hparse).
  cbn [SecurityIssues PerformanceHints BestPractices AIRecommendations
       CodeComplexity PerformanceScore PerformanceGrade].
  split; [exists (syntaxErrorIssue err); repeat split|].
  repeat split.
Qed.

(** C3, as the code has it: when the text parses, the score lies in
    [0, 100] and the grade is the one of A+, A, B, C, D, F whose band
    holds the score; when it does not parse, the score is 0 and the
    grade is the empty string. *)
Theorem score_and_grade_by_parse_outcome :
  let result := AnalyzeCode ParseFile now code codeType filePath in
  match ParseFile filePath code with
  | ParseOk _ _ =>
      0 <= PerformanceScore result <= 100 /\
      In (PerformanceGrade result) grades /\
      gradeBand (PerformanceScore result) (PerformanceGrade result)
  | ParseError _ =>
      PerformanceScore result = 0 /\ PerformanceGrade result = ""
  end.
Proof.
  cbv zeta. destruct (ParseFile filePath code) as [fset node|err] eqn:Hparse.
  - rewrite (AnalyzeCode_parsed _ _ _ _ _ _ _ Hparse).
    cbn [PerformanceScore PerformanceGrade].
    rewrite calculatePerformanceScore_eq. cbn [fst snd].
    pose proof (totalPenalty_nonneg (elems (detectPerformanceIssues node fset code))).
    pose proof (gradeOf_band
      (Z.max 0 (100 - totalPenalty (elems (detectPerformanceIssues node fset code))))) as B.
    split; [lia|]. split; [|exact B]. exact (gradeBand_grades _ _ B).
  - rewrite (AnalyzeCode_parse_error _ _ _ _ _ _ Hparse). split; reflexivity.
Qed.

End Scoring.

(** The range-loop sample: one critical finding, score 75, grade C. *)
Lemma score_is_clamped_penalty_sum_witness :
  let result := AnalyzeCode sampleParseFile 0 rangeLoop_src "go" "test.go" in
  PerformanceScore result
    = Z.max 0 (100 - totalPenalty (elems (PerformanceHints result))) /\
  PerformanceScore result = 75 /\
  PerformanceGrade result = "C".
Proof.
  pose proof (score_is_clamped_penalty_sum sampleParseFile 0 rangeLoop_src "go"
                "test.go" (sampleFileSet "test.go" rangeLoop_src) rangeLoop_ast
                eq_refl) as H.
  cbv zeta in *. split; [exact (proj1 H)|]. split; vm_compute; reflexivity.
Defined.

(** The "invalid Go code" of the test suite: score 0 and no grade. *)
Lemma parse_failure_result_witness :
  let result := AnalyzeCode sampleParseFile 0 invalid_src "go" "invalid.go" in
  PerformanceScore result = 0 /\ PerformanceGrade result = "".
Proof.
  pose proof (parse_failure_result sampleParseFile 0 invalid_src "go" "invalid.go"
                "invalid.go:1:1: expected 'package', found this" eq_refl) as H.
  cbv zeta in *. tauto.
Defined.

(** C3 as stated fails on the parse-failure path: the "invalid Go code"
    of the test suite gets the empty grade, which is no member of the
    grade set and not the grade of the band of its score 0. *)
Lemma grade_of_unparsed_text_is_empty :
  let result := AnalyzeCode sampleParseFile 0 invalid_src "go" "invalid.go" in
  PerformanceScore result = 0 /\
  PerformanceGrade result = "" /\
  ~ In (PerformanceGrade result) grades /\
  gradeBand (PerformanceScore result) "F" /\
  ~ gradeBand (PerformanceScore result) (PerformanceGrade result).
Proof.
  cbv zeta. rewrite (AnalyzeCode_parse_error _ _ _ _ _ _ (sampleParseFile_invalid _)).
  cbn [PerformanceScore PerformanceGrade].
  split; [reflexivity|]. split; [reflexivity|]. split.
  - simpl. intros H. repeat destruct H as [H|H]; try discriminate; exact H.
  - split; [constructor; lia|]. intros H. inversion H.
Qed.

(* ================================================================= *)
(** ** Texts without findings: the empty text, a print statement *)

Section PlainTexts.
  Variable ParseFile : Parser.
  Variable now : Time.
  Variables codeType filePath : string.

(** The empty text always gets a security finding, whatever the syntax
    provider makes of it. *)
Lemma empty_text_has_security_finding :
  elems (SecurityIssues (AnalyzeCode ParseFile now "" codeType filePath)) <> [].
Proof.
  destruct (ParseFile filePath "") as [fset node|err] eqn:Hparse.
  - rewrite (AnalyzeCode_parsed _ _ _ _ _ _ _ Hparse). discriminate.
  - rewrite (AnalyzeCode_parse_error _ _ _ _ _ _ Hparse). discriminate.
Qed.

(** C4, as the code has it.  On the empty text: when the syntax
    provider turns it away, the result is the one of the parse-failure
    path (one syntax_error finding of severity high, nothing else,
    complexity 0, score 0, empty grade); were it accepted, the security
    findings would be exactly missing_cors, the advisories Error
    Handling, Request Validation and Logging, the recommendations
    middleware, api_design and testing, the complexity that of the
    tree and, the tree having no loop around a database call, there
    would be no performance finding, score 100 and grade A+. *)
Theorem empty_text_result :
  let result := AnalyzeCode ParseFile now "" codeType filePath in
  match ParseFile filePath "" with
  | ParseError err =>
      (exists issue,
         SecurityIssues result = Some [issue] /\
         SecurityIssue.Type_ issue = "syntax_error" /\
         SecurityIssue.Severity issue = "high") /\
      elems (PerformanceHints result) = [] /\
      elems (BestPractices result) = [] /\
      elems (AIRecommendations result) = [] /\
      CodeComplexity result = 0 /\
      PerformanceScore result = 0 /\
      PerformanceGrade result = ""
  | ParseOk fset node =>
      map SecurityIssue.Type_ (elems (SecurityIssues result)) = ["missing_cors"] /\
      map BestPractice.Category (elems (BestPractices result))
        = ["Error Handling"; "Request Validation"; "Logging"] /\
      map AIRecommendation.Type_ (elems (AIRecommendations result))
        = ["middleware"; "api_design"; "testing"] /\
      CodeComplexity result = calculateComplexity node /\
      (forLoopsWithDBCall node = [] -> rangeLoopsWithDBCall node = [] ->
       elems (PerformanceHints result) = [] /\
       PerformanceScore result = 100 /\
       PerformanceGrade result = "A+")
  end.
Proof.
  cbv zeta. destruct (ParseFile filePath "") as [fset node|err] eqn:Hparse.
  - rewrite (AnalyzeCode_parsed _ _ _ _ _ _ _ Hparse).
    cbn [SecurityIssues PerformanceHints BestPractices AIRecommendations
         CodeComplexity PerformanceScore PerformanceGrade].
    repeat (split; [reflexivity|]).
    intros Hfor Hrange.
    assert (E : elems (detectPerformanceIssues node fset "") = []).
    { rewrite detectPerformanceIssues_elems, Hfor, Hrange. reflexivity. }
    rewrite calculatePerformanceScore_eq, E. repeat split.
  - rewrite (AnalyzeCode_parse_error _ _ _ _ _ _ Hparse).
    cbn [SecurityIssues PerformanceHints BestPractices AIRecommendations
         CodeComplexity PerformanceScore PerformanceGrade].
    split; [exists (syntaxErrorIssue err); repeat split|]. repeat split.
Qed.

(** C5, as the code has it.  A text in which none of the literals the
    rules search for occurs, parsed to a tree without loops (a file
    with only a print statement is one), gets no performance finding,
    score 100 and grade A+, but one security finding (missing_cors),
    three advisories (Error Handling, Request Validation, Logging) and
    three recommendations (middleware, api_design, testing). *)
Theorem plain_text_result (code : string) (fset : FileSet) (node : Node) :
  ParseFile filePath code = ParseOk fset node ->
  noRuleLiteral code = true ->
  hasLoop node = false ->
  let result := AnalyzeCode ParseFile now code codeType filePath in
  elems (PerformanceHints result) = [] /\
  PerformanceScore result = 100 /\
  PerformanceGrade result = "A+" /\
  map SecurityIssue.Type_ (elems (SecurityIssues result)) = ["missing_cors"] /\
  map BestPractice.Category (elems (BestPractices result))
    = ["Error Handling"; "Request Validation"; "Logging"] /\
  map AIRecommendation.Type_ (elems (AIRecommendations result))
    = ["middleware"; "api_design"; "testing"].
Proof.
  intros Hparse Hlit Hloop. cbv zeta.
  rewrite (AnalyzeCode_parsed _ _ _ _ _ _ _ Hparse).
  cbn [SecurityIssues PerformanceHints BestPractices AIRecommendations
       PerformanceScore PerformanceGrade].
  pose proof (noRuleLiteral_absent code Hlit) as Habs.
  destruct (no_loop_no_loop_findings node Hloop) as [Hfor Hrange].
  assert (E : elems (detectPerformanceIssues node fset code) = []).
  { rewrite detectPerformanceIssues_elems, Hfor, Hrange.
    unfold textualHints, wherePatterns, expensiveOperations. cbn [existsb].
    absent Habs. reflexivity. }
  rewrite calculatePerformanceScore_eq, E.
  repeat (split; [reflexivity|]).
  unfold detectSecurityIssues, suggestBestPractices, generateAIRecommendations.
  cbv zeta. absent Habs. repeat split.
Qed.

End PlainTexts.

(** C4 as stated fails: on the empty text the analysis of the test
    suite's "empty code" case reports a syntax error, with score 0 and
    no grade. *)
Lemma empty_text_is_reported_as_syntax_error :
  let result := AnalyzeCode sampleParseFile 0 "" "go" "empty.go" in
  map SecurityIssue.Type_ (elems (SecurityIssues result)) = ["syntax_error"] /\
  PerformanceScore result = 0 /\
  PerformanceGrade result = "".
Proof. vm_compute. repeat split. Qed.

(** The print-statement file of the test suite comes back with a nil
    slice of performance findings, not an empty one. *)
Lemma print_statement_file_hints_are_nil :
  PerformanceHints (AnalyzeCode sampleParseFile 0 helloWorld_src "go" "main.go")
  = None.
Proof. vm_compute. reflexivity. Qed.

(** C5 as stated fails: the print-statement file of the test suite
    gets one security finding, three advisories and three
    recommendations. *)
Lemma print_statement_file_has_findings :
  let result := AnalyzeCode sampleParseFile 0 helloWorld_src "go" "main.go" in
  map SecurityIssue.Type_ (elems (SecurityIssues result)) = ["missing_cors"] /\
  map BestPractice.Category (elems (BestPractices result))
    = ["Error Handling"; "Request Validation"; "Logging"] /\
  map AIRecommendation.Type_ (elems (AIRecommendations result))
    = ["middleware"; "api_design"; "testing"] /\
  PerformanceScore result = 100.
Proof. vm_compute. repeat split. Qed.

(** The print-statement file of the test suite is such a text. *)
Lemma plain_text_result_witness :
  let result := AnalyzeCode sampleParseFile 0 helloWorld_src "go" "main.go" in
  elems (PerformanceHints result) = [] /\
  PerformanceScore result = 100 /\
  PerformanceGrade result = "A+" /\
  map SecurityIssue.Type_ (elems (SecurityIssues result)) = ["missing_cors"] /\
  map BestPractice.Category (elems (BestPractices result))
    = ["Error Handling"; "Request Validation"; "Logging"] /\
  map AIRecommendation.Type_ (elems (AIRecommendations result))
    = ["middleware"; "api_design"; "testing"].
Proof.
  apply (plain_text_result sampleParseFile 0 "go" "main.go" helloWorld_src
           (sampleFileSet "main.go" helloWorld_src) helloWorld_ast).
  - reflexivity.
  - vm_compute. reflexivity.
  - vm_compute. reflexivity.
Defined.

(* ================================================================= *)
(** ** Determinism, the dialect hint, the advisories *)

Section Purity.
  Variable ParseFile : Parser.
  Variables code filePath : string.

(** C6: two runs on the same text, dialect and path, at whatever
    readings of the clock, agree on the security findings, the
    performance findings, the advisories, the recommendations, the
    complexity, the score, the grade and the path; the clock reading
    goes into the timestamp and nowhere else. *)
Theorem analysis_is_deterministic (codeType : string) (now1 now2 : Time) :
  let run1 := AnalyzeCode ParseFile now1 code codeType filePath in
  let run2 := AnalyzeCode ParseFile now2 code codeType filePath in
  SecurityIssues run1 = SecurityIssues run2 /\
  PerformanceHints run1 = PerformanceHints run2 /\
  BestPractices run1 = BestPractices run2 /\
  AIRecommendations run1 = AIRecommendations run2 /\
  CodeComplexity run1 = CodeComplexity run2 /\
  PerformanceScore run1 = PerformanceScore run2 /\
  PerformanceGrade run1 = PerformanceGrade run2 /\
  FilePath run1 = FilePath run2 /\
  AnalysisTime run1 = now1 /\
  AnalysisTime run2 = now2.
Proof.
  cbv zeta. destruct (ParseFile filePath code) as [fset node|err] eqn:Hparse.
  - rewrite !(AnalyzeCode_parsed _ _ _ _ _ _ _ Hparse). repeat split.
  - rewrite !(AnalyzeCode_parse_error _ _ _ _ _ _ Hparse). repeat split.
Qed.

(** C9: the dialect hint is read by no rule.  [AnalyzeCode] is a total
    function of its arguments, so every hint gets a result, and the
    results for two hints differ at most in the timestamp. *)
Theorem dialect_hint_is_unused (codeType1 codeType2 : string) (now1 now2 : Time) :
  let result1 := AnalyzeCode ParseFile now1 code codeType1 filePath in
  let result2 := AnalyzeCode ParseFile now2 code codeType2 filePath in
  generateAIRecommendations code codeType1 = generateAIRecommendations code codeType2 /\
  SecurityIssues result1 = SecurityIssues result2 /\
  PerformanceHints result1 = PerformanceHints result2 /\
  BestPractices result1 = BestPractices result2 /\
  AIRecommendations result1 = AIRecommendations result2 /\
  CodeComplexity result1 = CodeComplexity result2 /\
  PerformanceScore result1 = PerformanceScore result2 /\
  PerformanceGrade result1 = PerformanceGrade result2 /\
  FilePath result1 = FilePath result2.
Proof.
  cbv zeta. destruct (ParseFile filePath code) as [fset node|err] eqn:Hparse.
  - rewrite !(AnalyzeCode_parsed _ _ _ _ _ _ _ Hparse). repeat split.
  - rewrite !(AnalyzeCode_parse_error _ _ _ _ _ _ Hparse). repeat split.
Qed.

(** C10: when the text parses, the advisories start with the "Error
    Handling" entry, whatever the text is, so the list is not empty;
    an empty list of advisories is returned exactly on the
    parse-failure path. *)
Theorem error_handling_advisory_always_present (codeType : string) (now : Time) :
  let result := AnalyzeCode ParseFile now code codeType filePath in
  (forall fset node,
     ParseFile filePath code = ParseOk fset node ->
     exists rest,
       BestPractices result =
       Some ({| BestPractice.Category := "Error Handling";
                BestPractice.Current := "Basic error handling";
                BestPractice.Recommended :=
                  "Structured error responses with proper HTTP status codes";
                BestPractice.Reasoning :=
                  "Better client experience, easier debugging, API consistency" |}
             :: rest)) /\
  (elems (BestPractices result) = [] <->
   exists err, ParseFile filePath code = ParseError err).
Proof.
  cbv zeta.
  assert (P : forall fset node, exists rest,
             suggestBestPractices node fset code =
             Some ({| BestPractice.Category := "Error Handling";
                      BestPractice.Current := "Basic error handling";
                      BestPractice.Recommended :=
                        "Structured error responses with proper HTTP status codes";
                      BestPractice.Reasoning :=
                        "Better client experience, easier debugging, API consistency" |}
                   :: rest)).
  { intros fset node. unfold suggestBestPractices. cbv zeta.
    destruct (negb (Contains code "middleware"));
      destruct (negb (Contains code "Logger"));
      destruct (Contains code _); eexists; reflexivity. }
  split.
  - intros fset node Hparse.
    rewrite (AnalyzeCode_parsed _ _ _ _ _ _ _ Hparse). apply P.
  - destruct (ParseFile filePath code) as [fset node|err] eqn:Hparse.
    + rewrite (AnalyzeCode_parsed _ _ _ _ _ _ _ Hparse).
      cbn [BestPractices]. destruct (P fset node) as [rest ->].
      split; [discriminate | intros [err H]; discriminate].
    + rewrite (AnalyzeCode_parse_error _ _ _ _ _ _ Hparse).
      split; [intros _; now exists err | reflexivity].
Qed.

End Purity.

(* ================================================================= *)
(** ** N+1 queries in loops *)

Section LoopDetectors.
  Variable ParseFile : Parser.
  Variable now : Time.
  Variables code codeType filePath : string.

(** C7: when the text parses, the performance findings named
    "Potential N+1 Query Pattern" are, one for one and in traversal
    order, the counted loops of the tree whose subtree contains a
    data-access call, and those named "N+1 Query in Range Loop" the
    range loops that do; each is critical and carries the line of its
    loop.  The two names differ.  A range loop around a data-access
    call anywhere in the tree therefore gives a critical "N+1 Query in
    Range Loop" finding and a score of at most 75. *)
Theorem loops_around_database_calls_are_reported (fset : FileSet) (node : Node) :
  ParseFile filePath code = ParseOk fset node ->
  let result := AnalyzeCode ParseFile now code codeType filePath in
  let hints := elems (PerformanceHints result) in
  hintsNamed "Potential N+1 Query Pattern" hints
    = map (fun p => hintN1Loop (Line (fset p))) (forLoopsWithDBCall node) /\
  hintsNamed "N+1 Query in Range Loop" hints
    = map (fun p => hintN1Range (Line (fset p))) (rangeLoopsWithDBCall node) /\
  (forall For children,
     In (ForStmt For children) (subnodes node) ->
     containsDataAccessCall (ForStmt For children) ->
     exists hint,
       In hint hints /\
       PerformanceHint.Issue hint = "Potential N+1 Query Pattern" /\
       PerformanceHint.Severity hint = "critical" /\
       PerformanceHint.LineNumber hint = Line (fset For)) /\
  (forall For children,
     In (RangeStmt For children) (subnodes node) ->
     containsDataAccessCall (RangeStmt For children) ->
     (exists hint,
        In hint hints /\
        PerformanceHint.Issue hint = "N+1 Query in Range Loop" /\
        PerformanceHint.Severity hint = "critical" /\
        PerformanceHint.LineNumber hint = Line (fset For)) /\
     PerformanceScore result <= 75) /\
  "Potential N+1 Query Pattern" <> "N+1 Query in Range Loop".
Proof.
  intros Hparse. cbv zeta. rewrite (AnalyzeCode_parsed _ _ _ _ _ _ _ Hparse).
  cbn [PerformanceHints PerformanceScore].
  rewrite calculatePerformanceScore_eq. cbn [fst].
  rewrite detectPerformanceIssues_elems.
  split; [|split; [|split; [|split]]].
  - rewrite !hintsNamed_app, hintsNamed_textualHints by reflexivity.
    rewrite hintsNamed_map_all by reflexivity.
    rewrite hintsNamed_map_none by reflexivity.
    now rewrite app_nil_r.
  - rewrite !hintsNamed_app, hintsNamed_textualHints by reflexivity.
    rewrite hintsNamed_map_none by reflexivity.
    rewrite hintsNamed_map_all by reflexivity.
    now rewrite app_nil_r.
  - intros p children Hin Hdb. apply containsDBCall_iff in Hdb.
    exists (hintN1Loop (Line (fset p))). split; [|repeat split].
    apply in_or_app. left. apply in_map_iff. exists p. split; [reflexivity|].
    eapply forLoopsWithDBCall_In; eassumption.
  - intros p children Hin Hdb. apply containsDBCall_iff in Hdb.
    assert (Hhint : In (hintN1Range (Line (fset p)))
              (map (fun p => hintN1Loop (Line (fset p))) (forLoopsWithDBCall node)
               ++ map (fun p => hintN1Range (Line (fset p))) (rangeLoopsWithDBCall node)
               ++ textualHints code)).
    { apply in_or_app. right. apply in_or_app. left.
      apply in_map_iff. exists p. split; [reflexivity|].
      eapply rangeLoopsWithDBCall_In; eassumption. }
    split.
    + exists (hintN1Range (Line (fset p))). split; [exact Hhint | repeat split].
    + apply totalPenalty_In in Hhint. change (severityWeight _) with 25 in Hhint.
      lia.
  - discriminate.
Qed.

End LoopDetectors.

(** The range-loop sample: the loop of line 4 is reported. *)
Lemma loops_around_database_calls_are_reported_witness :
  let result := AnalyzeCode sampleParseFile 0 rangeLoop_src "go" "test.go" in
  (exists hint,
     In hint (elems (PerformanceHints result)) /\
     PerformanceHint.Issue hint = "N+1 Query in Range Loop" /\
     PerformanceHint.Severity hint = "critical" /\
     PerformanceHint.LineNumber hint = 4) /\
  PerformanceScore result <= 75.
Proof.
  pose proof (loops_around_database_calls_are_reported sampleParseFile 0
                rangeLoop_src "go" "test.go"
                (sampleFileSet "test.go" rangeLoop_src) rangeLoop_ast eq_refl) as H.
  cbv zeta in H. destruct H as (_ & _ & _ & H & _).
  destruct rangeLoop_ast_contains_query as [Hin Hdb].
  exact (H _ _ Hin Hdb).
Defined.

(* ================================================================= *)
(** ** SQL injection risk *)

Section SqlInjection.
  Variable ParseFile : Parser.
  Variable now : Time.
  Variables code codeType filePath : string.

(** C8: when the text parses, the security findings hold a finding of
    type sql_injection_risk and severity high if and only if one of
    SELECT, INSERT, UPDATE, DELETE occurs in the text and neither
    "Prepare" nor "?" does. *)
Theorem sql_injection_risk_iff (fset : FileSet) (node : Node) :
  ParseFile filePath code = ParseOk fset node ->
  let result := AnalyzeCode ParseFile now code codeType filePath in
  (exists issue,
     In issue (elems (SecurityIssues result)) /\
     SecurityIssue.Type_ issue = "sql_injection_risk" /\
     SecurityIssue.Severity issue = "high")
  <->
  ((occurs "SELECT" code \/ occurs "INSERT" code
    \/ occurs "UPDATE" code \/ occurs "DELETE" code)
   /\ ~ occurs "Prepare" code /\ ~ occurs "?" code).
Proof.
  intros Hparse. cbv zeta. rewrite (AnalyzeCode_parsed _ _ _ _ _ _ _ Hparse).
  cbn [SecurityIssues]. rewrite detectSecurityIssues_elems.
  rewrite <- !Contains_false_iff, <- !Contains_iff.
  set (dml := Contains code "SELECT" || Contains code "INSERT"
              || Contains code "UPDATE" || Contains code "DELETE").
  set (safe := negb (Contains code "Prepare") && negb (Contains code "?")).
  assert (Hdml : dml = true <->
                 Contains code "SELECT" = true \/ Contains code "INSERT" = true
                 \/ Contains code "UPDATE" = true \/ Contains code "DELETE" = true).
  { unfold dml. rewrite !orb_true_iff. tauto. }
  assert (Hsafe : safe = true <->
                  Contains code "Prepare" = false /\ Contains code "?" = false).
  { unfold safe. now rewrite andb_true_iff, !negb_true_iff. }
  rewrite <- Hdml, <- Hsafe. clear Hdml Hsafe.
  split.
  - intros [issue [Hin [Htype _]]].
    destruct dml, safe; try (split; reflexivity); exfalso;
      repeat (apply in_app_or in Hin; destruct Hin as [Hin|Hin]);
      repeat match type of Hin with
             | In _ (if ?c then _ else _) => destruct c
             end;
      simpl in Hin; repeat destruct Hin as [Hin|Hin]; subst; try discriminate;
      try contradiction.
  - intros [-> ->]. exists issueSqlInjection. split; [|split; reflexivity].
    apply in_or_app; right. apply in_or_app; right. apply in_or_app; right.
    now left.
Qed.

End SqlInjection.

(** The "SQL injection vulnerability" source of the test suite is
    reported. *)
Lemma sql_injection_risk_iff_witness :
  let result := AnalyzeCode sampleParseFile 0 sqlQuery_src "go" "test.go" in
  exists issue,
    In issue (elems (SecurityIssues result)) /\
    SecurityIssue.Type_ issue = "sql_injection_risk" /\
    SecurityIssue.Severity issue = "high".
Proof.
  apply (proj2 (sql_injection_risk_iff sampleParseFile 0 sqlQuery_src "go" "test.go"
                  (sampleFileSet "test.go" sqlQuery_src) sqlQuery_ast eq_refl)).
  split; [left; apply Contains_iff; vm_compute; reflexivity|].
  split; apply Contains_false_iff; vm_compute; reflexivity.
Defined.
